(** * propagation-tx: a transaction propagation engine over a relational driver

    Shallow embedding of package [sql] of the repository (the configuration
    defaulting of [config.go], the carrier [transactionContext] and the
    propagation engine [transactionManager] of [transaction.go]) together
    with the properties the specification states about them.

    Go pointers to carriers are indices into a store, the driver handle
    [*gorm.DB] is a record, and every function that touches the driver or
    the store is a computation in a state monad whose result is either a
    returned value or an unwinding panic. *)

From stdpp Require Import base option list strings numbers gmap.
From Stdlib Require Import Ascii HexString DecimalString DecimalZ.

Open Scope Z_scope.

(** ** Results of Go calls: a normal return or an unwinding panic *)

Inductive Outcome (A : Type) : Type :=
  | Ret (a : A)
  | Panicked (v : string).
Arguments Ret {A} a.
Arguments Panicked {A} v.

(** ** config.go *)

Module Config.

(** [ConnConfig]: Go's [int] fields are integers, strings are strings. *)
Record ConnConfig : Type := mkConnConfig {
  Host : string;
  Port : Z;
  User : string;
  Password : string;
  Database : string;
  MaxIdleConns : Z;
  MaxOpenConns : Z;
  ConnMaxLifetimeSec : Z;
  DbLog : bool;
  Dialect : string
}.

(** The fields [DefaultConfig] does not list hold Go's zero values. *)
Definition DefaultConfig : ConnConfig :=
  {| Host := ""; Port := 5432; User := ""; Password := ""; Database := "";
     MaxIdleConns := 5; MaxOpenConns := 20; ConnMaxLifetimeSec := 3600;
     DbLog := false; Dialect := "mysql" |}.

Definition set_Port (v : Z) (c : ConnConfig) : ConnConfig :=
  mkConnConfig (Host c) v (User c) (Password c) (Database c) (MaxIdleConns c)
    (MaxOpenConns c) (ConnMaxLifetimeSec c) (DbLog c) (Dialect c).
Definition set_MaxIdleConns (v : Z) (c : ConnConfig) : ConnConfig :=
  mkConnConfig (Host c) (Port c) (User c) (Password c) (Database c) v
    (MaxOpenConns c) (ConnMaxLifetimeSec c) (DbLog c) (Dialect c).
Definition set_MaxOpenConns (v : Z) (c : ConnConfig) : ConnConfig :=
  mkConnConfig (Host c) (Port c) (User c) (Password c) (Database c)
    (MaxIdleConns c) v (ConnMaxLifetimeSec c) (DbLog c) (Dialect c).
Definition set_ConnMaxLifetimeSec (v : Z) (c : ConnConfig) : ConnConfig :=
  mkConnConfig (Host c) (Port c) (User c) (Password c) (Database c)
    (MaxIdleConns c) (MaxOpenConns c) v (DbLog c) (Dialect c).
Definition set_Dialect (v : string) (c : ConnConfig) : ConnConfig :=
  mkConnConfig (Host c) (Port c) (User c) (Password c) (Database c)
    (MaxIdleConns c) (MaxOpenConns c) (ConnMaxLifetimeSec c) (DbLog c) v.

(** [PatchDefaultConfig(config *ConnConfig)] writes through the pointer
    and then panics on an empty database name: the result is the outcome
    of the call together with the record the pointer holds afterwards. *)
Definition PatchDefaultConfig (config : ConnConfig) : Outcome unit * ConnConfig :=
  let config :=
    if Port config =? 0 then set_Port (Port DefaultConfig) config else config in
  let config :=
    if MaxIdleConns config =? 0
    then set_MaxIdleConns (MaxIdleConns DefaultConfig) config else config in
  let config :=
    if MaxOpenConns config =? 0
    then set_MaxOpenConns (MaxOpenConns DefaultConfig) config else config in
  let config :=
    if ConnMaxLifetimeSec config =? 0
    then set_ConnMaxLifetimeSec (ConnMaxLifetimeSec DefaultConfig) config
    else config in
  let config :=
    if String.eqb (Dialect config) ""
    then set_Dialect (Dialect DefaultConfig) config else config in
  if String.eqb (Database config) ""
  then (Panicked "database must be set", config)
  else (Ret tt, config).

End Config.

(** ** transaction.go: errors, contexts and driver handles *)

(** Go's [error] values: the three sentinels of the package and any other
    error (the driver's, or one that [bizFn] returns).  [nil] is [None]. *)
Inductive error : Type :=
  | ErrCommitWithoutTransaction
  | ErrNeverPropInTransaction
  | ErrMandatoryPropWithoutTransaction
  | ErrOther (msg : string).

(** A [*transactionContext] is an index into the store of carriers. *)
Abbreviation ptr := nat (only parsing).

(** [context.Context]: the type assertion of [ctx] to a pointer to
    [transactionContext] succeeds on [TxCtx] and fails on every other
    context. *)
Inductive Context : Type :=
  | PlainCtx (id : nat)
  | TxCtx (p : ptr).

(** [Statement.ConnPool] of a handle: the connection pool ([*sql.DB], which
    is no [gorm.TxCommitter]) or the physical transaction [id] ([*sql.Tx]). *)
Inductive connPool : Type :=
  | PoolDB
  | PoolTx (id : nat).

(** Modelled from the spec: [gorm.DB] is not part of the repository; a handle
    carries what the engine reads from it: its pool, its [Error] field, the
    context it is bound to and the [DisableNestedTransaction] flag.  A
    [*gorm.DB] that may be nil is an [option DB]. *)
Record DB : Type := mkDB {
  ConnPool : connPool;
  Error : option error;
  StmtContext : Context;
  DisableNestedTransaction : bool
}.

Record transactionContext : Type := mkTransactionContext {
  ctx : Context;
  tx : option DB;
  parent : option ptr
}.

(** What reaches the driver, and what [bizFn] does, in the order it happens. *)
Inductive Event : Type :=
  | EvBegin (h : DB)
  | EvCommit (h : DB) (res : option error)
  | EvRollback (h : DB)
  | EvSavePoint (h : DB) (name : string) (res : option error)
  | EvRollbackTo (h : DB) (name : string)
  | EvBiz (cx : Context) (h : option DB) (tag : string).

(** The state a call chain runs in: the store of carriers, the trace, the
    next physical transaction the driver opens, and the verdicts the driver
    gives to the fallible calls to come ([None]: the call succeeds; an
    exhausted script: every call succeeds). *)
Record World : Type := mkWorld {
  carriers : list transactionContext;
  log : list Event;
  next_tx : nat;
  script : list (option error)
}.

(** ** The monad of Go calls *)

Definition M (A : Type) : Type := World → Outcome A * World.

#[global] Instance M_ret : MRet M := λ A a w, (Ret a, w).
#[global] Instance M_bind : MBind M := λ A B f x w,
  match x w with
  | (Ret a, w1) => f a w1
  | (Panicked v, w1) => (Panicked v, w1)
  end.

Definition panic {A : Type} (v : string) : M A := λ w, (Panicked v, w).

(** [defer cleanup body]: [cleanup] runs when [body] is left, by a return
    or by a panic, and sees how it was left; a panic goes on unwinding. *)
Definition defer {A : Type} (cleanup : Outcome A → M unit) (body : M A) : M A :=
  λ w, let '(o, w1) := body w in
       match cleanup o w1 with
       | (Ret _, w2) => (o, w2)
       | (Panicked v, w2) => (Panicked v, w2)
       end.

(** The test [panicked || err != nil] of the deferred closures: [panicked]
    is reset only by the last statement before the return. *)
Definition panicked_or_err (o : Outcome (option error)) : bool :=
  match o with
  | Panicked _ => true
  | Ret (Some _) => true
  | Ret None => false
  end.

Definition nil_dereference : string :=
  "invalid memory address or nil pointer dereference".

Definition deref (p : ptr) : M transactionContext := λ w,
  match carriers w !! p with
  | Some c => (Ret c, w)
  | None => (Panicked nil_dereference, w)
  end.

(** [&transactionContext{...}] *)
Definition alloc (c : transactionContext) : M ptr := λ w,
  (Ret (length (carriers w)),
   mkWorld (carriers w ++ [c]) (log w) (next_tx w) (script w)).

(** [txCtx.tx = h] *)
Definition set_tx (p : ptr) (h : option DB) : M unit := λ w,
  match carriers w !! p with
  | Some c =>
      (Ret tt,
       mkWorld (<[p := mkTransactionContext (ctx c) h (parent c)]> (carriers w))
               (log w) (next_tx w) (script w))
  | None => (Panicked nil_dereference, w)
  end.

Definition emit (e : Event) : M unit := λ w,
  (Ret tt, mkWorld (carriers w) (log w ++ [e]) (next_tx w) (script w)).

Definition verdict : M (option error) := λ w,
  match script w with
  | [] => (Ret None, w)
  | r :: s => (Ret r, mkWorld (carriers w) (log w) (next_tx w) s)
  end.

Definition fresh_tx : M nat := λ w,
  (Ret (next_tx w), mkWorld (carriers w) (log w) (S (next_tx w)) (script w)).

(** ** The driver boundary *)

Module gorm.

(** Modelled from the spec: the methods of [gorm.DB] the engine calls are
    not part of the repository.  Each call is recorded in the trace; the
    fallible ones ([Begin], [Commit], [SavePoint]) take the driver's next
    verdict and report it in the [Error] they return.  A method called on a
    nil handle panics. *)

Definition on_handle {A : Type} (db : option DB) (f : DB → M A) : M A :=
  match db with
  | Some h => f h
  | None => panic nil_dereference
  end.

(** The [TxCommitter] assertion on [Statement.ConnPool]. *)
Definition is_committer (pool : connPool) : bool :=
  match pool with
  | PoolTx _ => true
  | PoolDB => false
  end.

(** The view of [h] bound to [cx] that [h.WithContext(cx)] returns: the
    same pool under another context. *)
Definition bound (h : DB) (cx : Context) : DB :=
  mkDB (ConnPool h) (Error h) cx (DisableNestedTransaction h).

Definition WithContext (db : option DB) (cx : Context) : M (option DB) :=
  on_handle db (λ h, mret (Some (bound h cx))).

(** [db.Begin()]: a new handle; on success it holds a physical transaction
    no other handle holds, on failure the pool it was asked on and the error. *)
Definition Begin (db : option DB) : M (option DB) :=
  on_handle db (λ h,
    r ← verdict;
    match r with
    | None =>
        n ← fresh_tx;
        let t := mkDB (PoolTx n) None (StmtContext h) (DisableNestedTransaction h) in
        emit (EvBegin t);; mret (Some t)
    | Some e =>
        let t := mkDB (ConnPool h) (Some e) (StmtContext h) (DisableNestedTransaction h) in
        emit (EvBegin t);; mret (Some t)
    end).

(** [db.Commit().Error] *)
Definition Commit (db : option DB) : M (option error) :=
  on_handle db (λ h, r ← verdict; emit (EvCommit h r);; mret r).

(** [db.Rollback()], whose result the engine drops *)
Definition Rollback (db : option DB) : M unit :=
  on_handle db (λ h, emit (EvRollback h)).

(** [db.SavePoint(name).Error] *)
Definition SavePoint (db : option DB) (name : string) : M (option error) :=
  on_handle db (λ h, r ← verdict; emit (EvSavePoint h name r);; mret r).

(** [db.RollbackTo(name)], whose result the engine drops *)
Definition RollbackTo (db : option DB) (name : string) : M unit :=
  on_handle db (λ h, emit (EvRollbackTo h name)).

End gorm.

(** ** transaction.go: the carrier *)

Definition IsRoot (c : transactionContext) : bool :=
  match parent c with
  | None => true
  | Some _ => false
  end.

Definition Ctx (c : transactionContext) : Context := ctx c.

Definition TxDB (c : transactionContext) : option DB := tx c.

Definition TxError (c : transactionContext) : option error :=
  match tx c with
  | Some h => Error h
  | None => None
  end.

Definition InTransaction (c : transactionContext) : bool :=
  match tx c with
  | None => false
  | Some h => gorm.is_committer (ConnPool h)
  end.

(** [c.Session()]: a new carrier whose parent is [c] itself *)
Definition Session (p : ptr) : M ptr :=
  c ← deref p;
  t ← gorm.WithContext (tx c) (ctx c);
  alloc (mkTransactionContext (ctx c) t (Some p)).

Definition Rollback (p : ptr) : M unit :=
  c ← deref p;
  if InTransaction c && IsRoot c then gorm.Rollback (tx c) else mret tt.

Definition Commit (p : ptr) : M (option error) :=
  c ← deref p;
  if negb (InTransaction c) then mret (Some ErrCommitWithoutTransaction)
  else if IsRoot c then gorm.Commit (tx c)
  else mret None.

(** ** conn.go: the factory *)

(** The [DBFactory] interface.  Its implementation in the repository hands
    out views of one cached handle and touches neither the driver nor the
    carriers, so its methods are functions. *)
Record DBFactory : Type := mkDBFactory {
  GetDB : Context → option DB;
  GetOriginDB : option DB
}.

(** [GlobalCachedDBFactory]: [NewCachedDBFactory] builds it only from a
    handle the creator returned without an error. *)
Definition GlobalCachedDBFactory (db : DB) : DBFactory :=
  {| GetDB := λ cx, Some (gorm.bound db cx);
     GetOriginDB := Some db |}.

(** ** transaction.go: the propagation engine *)

(** [type TransactionPropagation int8] and its seven [iota] constants *)
Definition TransactionPropagation : Type := Z.

Definition PropagationRequired : TransactionPropagation := 0.
Definition PropagationSupports : TransactionPropagation := 1.
Definition PropagationMandatory : TransactionPropagation := 2.
Definition PropagationRequiresNew : TransactionPropagation := 3.
Definition PropagationNotSupported : TransactionPropagation := 4.
Definition PropagationNested : TransactionPropagation := 5.
Definition PropagationNever : TransactionPropagation := 6.

Definition defaultPropagation : TransactionPropagation := PropagationRequired.

(** A business function [func(ctx context.Context, tx *gorm.DB) error]: the
    address that the verb [%p] prints for it, and what calling it does. *)
Record bizFunc : Type := mkBizFunc {
  addr : N;
  call : Context → option DB → M (option error)
}.

(** [fmt.Sprintf("sp%p", bizFn)] *)
Definition savepoint_name (bizFn : bizFunc) : string :=
  "sp" +:+ HexString.of_N (addr bizFn).

Record transactionManager : Type := mkTransactionManager {
  dBFactory : DBFactory
}.

Definition NewTransactionManager (factory : DBFactory) : transactionManager :=
  {| dBFactory := factory |}.

Definition getPureDB (m : transactionManager) (cx : Context) : option DB :=
  GetDB (dBFactory m) cx.

Module TransactionManager.

(** [m.GetDB(ctx)] *)
Definition GetDB (m : transactionManager) (cx : Context) : M (option DB) :=
  match cx with
  | TxCtx p =>
      txCtx ← deref p;
      match tx txCtx with
      | Some h => mret (Some h)
      | None => mret (getPureDB m cx)
      end
  | PlainCtx _ => mret (getPureDB m cx)
  end.

Definition GetOriginDB (m : transactionManager) : option DB :=
  GetOriginDB (dBFactory m).

End TransactionManager.

Definition withNeverPropagation
    (m : transactionManager) (cx : Context) (bizFn : bizFunc) : M (option error) :=
  let run := call bizFn cx (getPureDB m cx) in
  match cx with
  | TxCtx p =>
      txCtx ← deref p;
      if InTransaction txCtx then mret (Some ErrNeverPropInTransaction) else run
  | PlainCtx _ => run
  end.

(** The part of [withRequiredPropagation] and [withRequiresNewPropagation]
    from the [defer] on, which the two functions spell out alike. *)
Definition run_owned (p : ptr) (bizFn : bizFunc) : M (option error) :=
  defer (λ o, if panicked_or_err o then Rollback p else mret tt)
    (txCtx ← deref p;
     err ← match TxError txCtx with
           | None => call bizFn (TxCtx p) (tx txCtx)
           | Some e => mret (Some e)
           end;
     match err with
     | None => Commit p
     | Some e => mret (Some e)
     end).

Definition withRequiredPropagation
    (m : transactionManager) (cx : Context) (bizFn : bizFunc) : M (option error) :=
  let open :=
    db ← gorm.Begin (getPureDB m cx);
    match cx with
    | TxCtx p => set_tx p db;; run_owned p bizFn
    | PlainCtx _ =>
        p ← alloc (mkTransactionContext cx db None);
        run_owned p bizFn
    end in
  match cx with
  | TxCtx p =>
      txCtx ← deref p;
      if InTransaction txCtx
      then s ← Session p; call bizFn (TxCtx s) (tx txCtx)
      else open
  | PlainCtx _ => open
  end.

Definition withNestedPropagation
    (m : transactionManager) (cx : Context) (bizFn : bizFunc) : M (option error) :=
  match cx with
  | TxCtx p =>
      txCtx ← deref p;
      if InTransaction txCtx then
        let db := TxDB txCtx in
        let join := s ← Session p; call bizFn (TxCtx s) (TxDB txCtx) in
        disabled ← gorm.on_handle db (λ h, mret (DisableNestedTransaction h));
        if negb disabled then
          err ← gorm.SavePoint db (savepoint_name bizFn);
          defer (λ o, if panicked_or_err o
                      then gorm.RollbackTo db (savepoint_name bizFn) else mret tt)
            match err with
            | None => join
            | Some e => mret (Some e)
            end
        else join
      else withRequiredPropagation m cx bizFn
  | PlainCtx _ => withRequiredPropagation m cx bizFn
  end.

Definition withRequiresNewPropagation
    (m : transactionManager) (cx : Context) (bizFn : bizFunc) : M (option error) :=
  pureCtx ← match cx with
            | TxCtx p => txCtx ← deref p; mret (Ctx txCtx)
            | PlainCtx _ => mret cx
            end;
  db ← gorm.Begin (getPureDB m pureCtx);
  p ← alloc (mkTransactionContext cx db None);
  run_owned p bizFn.

Definition withSupportsPropagation
    (m : transactionManager) (cx : Context) (bizFn : bizFunc) : M (option error) :=
  let run := call bizFn cx (getPureDB m cx) in
  match cx with
  | TxCtx p =>
      txCtx ← deref p;
      if InTransaction txCtx
      then s ← Session p; call bizFn (TxCtx s) (tx txCtx)
      else run
  | PlainCtx _ => run
  end.

Definition withMandatoryPropagation
    (m : transactionManager) (cx : Context) (bizFn : bizFunc) : M (option error) :=
  match cx with
  | TxCtx p =>
      txCtx ← deref p;
      if InTransaction txCtx
      then s ← Session p; call bizFn (TxCtx s) (tx txCtx)
      else mret (Some ErrMandatoryPropWithoutTransaction)
  | PlainCtx _ => mret (Some ErrMandatoryPropWithoutTransaction)
  end.

Definition withNotSupportedPropagation
    (m : transactionManager) (cx : Context) (bizFn : bizFunc) : M (option error) :=
  pureCtx ← match cx with
            | TxCtx p => txCtx ← deref p; mret (Ctx txCtx)
            | PlainCtx _ => mret cx
            end;
  call bizFn pureCtx (getPureDB m pureCtx).

(** [m.Transaction(ctx, bizFn, propagations...)] *)
Definition Transaction
    (m : transactionManager) (cx : Context) (bizFn : bizFunc)
    (propagations : list TransactionPropagation) : M (option error) :=
  let propagation :=
    match propagations with
    | p :: _ => p
    | [] => defaultPropagation
    end in
  if propagation =? PropagationRequired then withRequiredPropagation m cx bizFn
  else if propagation =? PropagationSupports then withSupportsPropagation m cx bizFn
  else if propagation =? PropagationMandatory then withMandatoryPropagation m cx bizFn
  else if propagation =? PropagationRequiresNew then withRequiresNewPropagation m cx bizFn
  else if propagation =? PropagationNotSupported then withNotSupportedPropagation m cx bizFn
  else if propagation =? PropagationNested then withNestedPropagation m cx bizFn
  else if propagation =? PropagationNever then withNeverPropagation m cx bizFn
  else panic "not supported propagation".

(** ** Vocabulary of the statements *)

(** [cx] carries the live ambient transaction of carrier [c], stored at [p]. *)
Definition live_ambient (cx : Context) (w : World) (p : ptr) (c : transactionContext) : Prop :=
  cx = TxCtx p ∧ carriers w !! p = Some c ∧ InTransaction c = true.

(** [cx] carries no live ambient transaction: it is no carrier, or a carrier
    that is not in a transaction. *)
Definition no_live_ambient (cx : Context) (w : World) : Prop :=
  match cx with
  | PlainCtx _ => True
  | TxCtx p => ∃ c, carriers w !! p = Some c ∧ InTransaction c = false
  end.

(** [cx] is not a carrier that records a parent. *)
Definition not_a_child (cx : Context) (w : World) : Prop :=
  match cx with
  | PlainCtx _ => True
  | TxCtx p => ∀ c, carriers w !! p = Some c → parent c = None
  end.

(** The verdict the driver gives to the next fallible call, and the world
    once it is given. *)
Definition head_verdict (w : World) : option error :=
  match script w with
  | r :: _ => r
  | [] => None
  end.

Definition consumed (w : World) : World :=
  mkWorld (carriers w) (log w) (next_tx w) (tail (script w)).

Definition logged (es : list Event) (w : World) : World :=
  mkWorld (carriers w) (log w ++ es) (next_tx w) (script w).

(** The handle a successful [Begin] on [db] returns in [w]. *)
Definition begun (db : DB) (w : World) : DB :=
  mkDB (PoolTx (next_tx w)) None (StmtContext db) (DisableNestedTransaction db).

(** Carrier [p] is the root carrier of the open transaction [t]. *)
Definition owns (p : ptr) (t : DB) (w : World) : Prop :=
  ∃ c, carriers w !! p = Some c ∧ tx c = Some t ∧ parent c = None
       ∧ gorm.is_committer (ConnPool t) = true ∧ Error t = None.

(** How a frame that owns [t] is left once [bizFn] has left with [o] in [w]. *)
Definition owned_exit (t : DB) (o : Outcome (option error)) (w : World)
    : Outcome (option error) * World :=
  match o with
  | Ret None =>
      match head_verdict w with
      | None => (Ret None, logged [EvCommit t None] (consumed w))
      | Some e =>
          (Ret (Some e), logged [EvCommit t (Some e); EvRollback t] (consumed w))
      end
  | Ret (Some e) => (Ret (Some e), logged [EvRollback t] w)
  | Panicked v => (Panicked v, logged [EvRollback t] w)
  end.

(** How a frame that set the savepoint [name] on [t] is left. *)
Definition savepoint_exit (t : DB) (name : string) (o : Outcome (option error))
    (w : World) : Outcome (option error) * World :=
  if panicked_or_err o then (o, logged [EvRollbackTo t name] w) else (o, w).

(** What an engine call may do to the carriers that exist: it keeps their
    [ctx] and [parent], and the [tx] of those that are in a transaction. *)
Definition carriers_kept (w w' : World) : Prop :=
  ∀ p c, carriers w !! p = Some c →
    ∃ c', carriers w' !! p = Some c' ∧ ctx c' = ctx c ∧ parent c' = parent c
          ∧ (InTransaction c = true → tx c' = tx c).

Definition keeps_carriers {A : Type} (x : M A) : Prop :=
  ∀ w, carriers_kept w (x w).2.

(** [cx] is a carrier whose [tx] is the handle [h]; [cx] is no carrier, or
    a carrier whose [tx] is nil. *)
Definition carries_tx (cx : Context) (w : World) (h : DB) : Prop :=
  ∃ p c, cx = TxCtx p ∧ carriers w !! p = Some c ∧ tx c = Some h.

Definition carries_no_tx (cx : Context) (w : World) : Prop :=
  match cx with
  | PlainCtx _ => True
  | TxCtx p => ∃ c, carriers w !! p = Some c ∧ tx c = None
  end.

(** The world once carrier [c] is allocated, and once a [Begin] that
    returned [t] is recorded with the carriers being [store]. *)
Definition stored (c : transactionContext) (w : World) : World :=
  mkWorld (carriers w ++ [c]) (log w) (next_tx w) (script w).

Definition after_begin (t : DB) (store : list transactionContext) (w : World) : World :=
  mkWorld store (log w ++ [EvBegin t]) (S (next_tx w)) (tail (script w)).

(** The carrier a [Required] frame that opens a transaction runs on, and
    the carriers once it has bound [t]: the carrier the context is, when it
    is one, and a new root carrier otherwise. *)
Definition opened_carrier (cx : Context) (w : World) : ptr :=
  match cx with
  | TxCtx p => p
  | PlainCtx _ => length (carriers w)
  end.

Definition opened_store (cx : Context) (t : DB) (w : World) : list transactionContext :=
  match cx with
  | TxCtx p =>
      match carriers w !! p with
      | Some c => <[p := mkTransactionContext (ctx c) (Some t) (parent c)]> (carriers w)
      | None => carriers w
      end
  | PlainCtx _ => carriers w ++ [mkTransactionContext cx (Some t) None]
  end.

(** The child that [Session] derives from carrier [c] stored at [p]. *)
Definition session_of (p : ptr) (c : transactionContext) : transactionContext :=
  mkTransactionContext (ctx c) ((λ h, gorm.bound h (ctx c)) <$> tx c) (Some p).

(** Every physical transaction a carrier holds was opened by the driver. *)
Definition tx_ids_below (w : World) : Prop :=
  ∀ p c h n, carriers w !! p = Some c → tx c = Some h →
    ConnPool h = PoolTx n → (n < next_tx w)%nat.

(** The context a [RequiresNew] or [NotSupported] frame strips [cx] to:
    [txCtx.Ctx()] when [cx] is a carrier, [cx] itself otherwise. *)
Definition wrapped_ctx (cx : Context) (w : World) : option Context :=
  match cx with
  | PlainCtx _ => Some cx
  | TxCtx p => ctx <$> carriers w !! p
  end.

(** The frames that open a transaction of their own, with the handle [t]
    they begin, the carrier [r] they run [bizFn] on and the world [w2]
    they run it in: a [Required] frame on a context that carries no live
    ambient transaction and is no child carrier, and a [RequiresNew] frame;
    in both the driver accepts the [Begin]. *)
Inductive opens_root (m : transactionManager) (cx : Context) (w : World)
    : TransactionPropagation → DB → ptr → World → Prop :=
  | opens_required (db : DB) :
      no_live_ambient cx w → not_a_child cx w →
      getPureDB m cx = Some db → head_verdict w = None →
      opens_root m cx w PropagationRequired (begun db w) (opened_carrier cx w)
        (after_begin (begun db w) (opened_store cx (begun db w) w) w)
  | opens_requires_new (db : DB) (pureCtx : Context) :
      wrapped_ctx cx w = Some pureCtx →
      getPureDB m pureCtx = Some db → head_verdict w = None →
      opens_root m cx w PropagationRequiresNew (begun db w) (length (carriers w))
        (after_begin (begun db w)
           (carriers w ++ [mkTransactionContext cx (Some (begun db w)) None]) w).

(** The handle a recorded driver call was made on. *)
Definition event_handle (ev : Event) : option DB :=
  match ev with
  | EvBegin h | EvCommit h _ | EvRollback h
  | EvSavePoint h _ _ | EvRollbackTo h _ => Some h
  | EvBiz _ h _ => h
  end.

(** The calls that leave the store of carriers alone. *)
Definition store_untouched {A : Type} (x : M A) : Prop :=
  ∀ w, carriers (x w).2 = carriers w.

(** A call that never returns a nil error: it returns an error or panics. *)
Definition never_nil (x : M (option error)) : Prop :=
  ∀ w, (x w).1 ≠ Ret None.

(** The handle a [Begin] on [db] that the driver refuses with [e] returns,
    and the world once that [Begin] is recorded with the carriers being
    [store]. *)
Definition refused (db : DB) (e : error) : DB :=
  mkDB (ConnPool db) (Some e) (StmtContext db) (DisableNestedTransaction db).

Definition after_refusal (t : DB) (store : list transactionContext) (w : World) : World :=
  mkWorld store (log w ++ [EvBegin t]) (next_tx w) (tail (script w)).

(** ** Concrete inputs *)

Module Sample.

Definition pool : DB := mkDB PoolDB None (PlainCtx 0) false.

Definition tm : transactionManager :=
  NewTransactionManager (GlobalCachedDBFactory pool).

Definition handle (n : nat) : DB := mkDB (PoolTx n) None (PlainCtx 0) false.

(** Business functions that record how they were called and then return
    nil, return an error, or panic. *)
Definition biz_ok (tag : string) : bizFunc :=
  mkBizFunc 4096 (λ cx h, emit (EvBiz cx h tag);; mret None).

Definition mockErr : error := ErrOther "mock error".

Definition biz_err (tag : string) : bizFunc :=
  mkBizFunc 4112 (λ cx h, emit (EvBiz cx h tag);; mret (Some mockErr)).

Definition biz_panic (tag : string) : bizFunc :=
  mkBizFunc 4128 (λ cx h, emit (EvBiz cx h tag);; panic "mock panic").

(** A business function that records its call and then runs [inner] in a
    frame of mode [mode] on the context it was given, returning its result. *)
Definition biz_outer (inner : bizFunc) (mode : TransactionPropagation) : bizFunc :=
  mkBizFunc 8192 (λ cx h, emit (EvBiz cx h "u1");; Transaction tm cx inner [mode]).

(** No carrier yet; every driver call succeeds. *)
Definition w_empty : World := mkWorld [] [] 0 [].

(** The driver refuses the next call. *)
Definition w_refusing : World := mkWorld [] [] 0 [Some (ErrOther "driver error")].

(** The driver accepts the next call and refuses the one after it. *)
Definition w_commit_fails : World :=
  mkWorld [] [] 0 [None; Some (ErrOther "commit failed")].

(** Carrier 0 is the root carrier of the live transaction 0. *)
Definition w_live : World :=
  mkWorld [mkTransactionContext (PlainCtx 0) (Some (handle 0)) None] [] 1 [].

(** Carrier 0 is a root carrier whose handle is no committer. *)
Definition w_stale : World :=
  mkWorld [mkTransactionContext (PlainCtx 0) (Some pool) None] [] 0 [].

(** Carrier 1 is a child of carrier 0; neither is in a transaction. *)
Definition w_stale_child : World :=
  mkWorld [mkTransactionContext (PlainCtx 0) (Some pool) None;
           mkTransactionContext (PlainCtx 0) (Some pool) (Some 0%nat)] [] 0 [].

End Sample.

(** ** cache.go: the process-wide connection cache *)

Module Cache.

(** [dbCache]: a map from the source tag to a map from the cache key to the
    handle.  One call chain is modelled, so the [sync.RWMutex] that every
    method holds for its whole body is left out. *)
Record dbCache : Type := mkDbCache {
  dbConns : gmap string (gmap string (option DB))
}.

(** [conns[key]] under [d.dbConns[source]], with its presence: [None] when
    the source or the key is absent, [Some conn] when an entry is stored,
    be it a nil handle. *)
Definition entry (d : dbCache) (source key : string) : option (option DB) :=
  match dbConns d !! source with
  | Some conns => conns !! key
  | None => None
  end.

Definition Get (d : dbCache) (source key : string) : option DB :=
  match dbConns d !! source with
  | Some conns =>
      match conns !! key with
      | Some conn => conn
      | None => None
      end
  | None => None
  end.

(** [d.Set(source, key, db)] *)
Definition Set_ (d : dbCache) (source key : string) (db : option DB) : dbCache :=
  let (conns, dbConns1) :=
    match dbConns d !! source with
    | Some conns => (conns, dbConns d)
    | None => (∅, <[source := ∅]> (dbConns d))
    end in
  mkDbCache (<[source := <[key := db]> conns]> dbConns1).

(** [d.GetOrCreate(source, key, createFunc)]: [createFunc] runs in a state
    [S] of its own; the inner map of the source is made before the key is
    looked up. *)
Definition GetOrCreate {S : Type} (d : dbCache) (source key : string)
    (createFunc : S → Outcome (option DB * option error) * S) (s : S)
    : Outcome (option DB * option error) * (dbCache * S) :=
  let (conns, dbConns1) :=
    match dbConns d !! source with
    | Some conns => (conns, dbConns d)
    | None => (∅, <[source := ∅]> (dbConns d))
    end in
  match conns !! key with
  | Some conn => (Ret (conn, None), (mkDbCache dbConns1, s))
  | None =>
      match createFunc s with
      | (Ret (conn, None), s1) =>
          (Ret (conn, None),
           (mkDbCache (<[source := <[key := conn]> conns]> dbConns1), s1))
      | (Ret (conn, Some err), s1) =>
          (Ret (conn, Some err), (mkDbCache dbConns1, s1))
      | (Panicked v, s1) => (Panicked v, (mkDbCache dbConns1, s1))
      end
  end.

End Cache.

(** ** conn.go: creators and cached factories *)

Module Conn.

(** [strconv.Itoa] *)
Definition Itoa (i : Z) : string := NilZero.string_of_int (Z.to_int i).

(** The calls of [createDB] into the driver, which is not part of the
    repository: [gorm.Open(mysql.Open(connStr))], and the three setters on
    the [*sql.DB] of the opened handle (with the fatal exit when that
    cannot be had).  They run in a state [S] of the driver's. *)
Record sqlDriver (S : Type) : Type := mkSqlDriver {
  gormOpen : string → S → Outcome (option DB * option error) * S;
  configurePool : option DB → Z → Z → Z → S → Outcome unit * S
}.
Arguments gormOpen {S} _ _ _.
Arguments configurePool {S} _ _ _ _ _ _.

(** [fmt.Sprintf("%s:%s@tcp(%s:%d)/%s?charset=utf8", ...)] *)
Definition connStr (c : Config.ConnConfig) : string :=
  Config.User c +:+ ":" +:+ Config.Password c +:+ "@tcp(" +:+ Config.Host c
    +:+ ":" +:+ Itoa (Config.Port c) +:+ ")/" +:+ Config.Database c
    +:+ "?charset=utf8".

(** [createDB(connConfig)]: besides its results, the record the pointer
    holds afterwards. *)
Definition createDB {S : Type} (drv : sqlDriver S) (connConfig : Config.ConnConfig)
    (s : S) : Outcome (option DB * option error) * (Config.ConnConfig * S) :=
  match Config.PatchDefaultConfig connConfig with
  | (Panicked v, connConfig) => (Panicked v, (connConfig, s))
  | (Ret _, connConfig) =>
      match gormOpen drv (connStr connConfig) s with
      | (Panicked v, s1) => (Panicked v, (connConfig, s1))
      | (Ret (db, Some err), s1) => (Ret (None, Some err), (connConfig, s1))
      | (Ret (db, None), s1) =>
          match configurePool drv db (Config.MaxIdleConns connConfig)
                  (Config.MaxOpenConns connConfig)
                  (Config.ConnMaxLifetimeSec connConfig) s1 with
          | (Panicked v, s2) => (Panicked v, (connConfig, s2))
          | (Ret _, s2) => (Ret (db, None), (connConfig, s2))
          end
      end
  end.

(** The [CacheableDBCreator] interface. *)
Record CacheableDBCreator (S : Type) : Type := mkCreator {
  CreateDB : S → Outcome (option DB * option error) * S;
  CacheKey : string;
  CacheSource : string
}.
Arguments CreateDB {S} _ _.
Arguments CacheKey {S} _.
Arguments CacheSource {S} _.

Record simpleDBCreator : Type := mkSimpleDBCreator {
  host : string;
  port : Z;
  database : string;
  user : string;
  password : string
}.

Definition simpleDBCreator_CreateDB {S : Type} (drv : sqlDriver S)
    (c : simpleDBCreator) (s : S) : Outcome (option DB * option error) * S :=
  let connConfig :=
    Config.mkConnConfig (host c) (port c) (user c) (password c) (database c)
      0 0 0 false "" in
  let '(o, (_, s1)) := createDB drv connConfig s in (o, s1).

Definition simpleDBCreator_CacheKey (c : simpleDBCreator) : string :=
  host c +:+ "#" +:+ Itoa (port c) +:+ "#" +:+ database c.

Definition simpleDBCreator_CacheSource : string := "simple_db".

(** [configDBCreator]: the key and the source tag of the configuration its
    pointer holds. *)
Definition configDBCreator_CacheKey (config : Config.ConnConfig) : string :=
  Config.Host config +:+ "#" +:+ Itoa (Config.Port config) +:+ "#"
    +:+ Config.Database config.

Definition configDBCreator_CacheSource : string := "config_db".

Definition simple_creator {S : Type} (drv : sqlDriver S) (c : simpleDBCreator)
    : CacheableDBCreator S :=
  mkCreator S (simpleDBCreator_CreateDB drv c) (simpleDBCreator_CacheKey c)
    simpleDBCreator_CacheSource.

(** The struct [GlobalCachedDBFactory] that [NewCachedDBFactory] returns,
    by the handle it holds; [GetDB] called on it. *)
Definition GlobalCachedDBFactory_GetDB (db : option DB) (cx : Context)
    : Outcome (option DB) :=
  match db with
  | Some h => Ret (Some (gorm.bound h cx))
  | None => Panicked nil_dereference
  end.

(** [NewCachedDBFactory(creator)] on the package's [cache]: the handle of
    the factory it returns ([None]: a nil factory) and the error. *)
Definition NewCachedDBFactory {S : Type} (creator : CacheableDBCreator S)
    (cache : Cache.dbCache) (s : S)
    : Outcome (option (option DB) * option error) * (Cache.dbCache * S) :=
  let source := CacheSource creator in
  let key := CacheKey creator in
  match Cache.GetOrCreate cache source key (CreateDB creator) s with
  | (Ret (db, Some err), st) => (Ret (None, Some err), st)
  | (Ret (db, None), st) => (Ret (Some db, None), st)
  | (Panicked v, st) => (Panicked v, st)
  end.

Definition NewSimpleDBFactory {S : Type} (drv : sqlDriver S)
    (host : string) (port : Z) (database user password : string)
    (cache : Cache.dbCache) (s : S)
    : Outcome (option (option DB) * option error) * (Cache.dbCache * S) :=
  NewCachedDBFactory
    (simple_creator drv (mkSimpleDBCreator host port database user password))
    cache s.

Definition GetSimpleDB {S : Type} (drv : sqlDriver S)
    (host : string) (port : Z) (database user password : string) (cx : Context)
    (cache : Cache.dbCache) (s : S)
    : Outcome (option DB * option error) * (Cache.dbCache * S) :=
  match NewSimpleDBFactory drv host port database user password cache s with
  | (Ret (_, Some err), st) => (Ret (None, Some err), st)
  | (Ret (Some db, None), st) =>
      match GlobalCachedDBFactory_GetDB db cx with
      | Ret h => (Ret (h, None), st)
      | Panicked v => (Panicked v, st)
      end
  | (Ret (None, None), st) => (Panicked nil_dereference, st)
  | (Panicked v, st) => (Panicked v, st)
  end.

(** A string holds no ['#']. *)
Fixpoint hash_free (s : string) : bool :=
  match s with
  | EmptyString => true
  | String a s' => negb (Ascii.eqb a "#"%char) && hash_free s'
  end.

End Conn.

(** ** Concrete drivers *)

Module ConnSample.

(** A driver that opens every connection string and keeps a journal of the
    calls it receives. *)
Definition driver : Conn.sqlDriver (list string) :=
  Conn.mkSqlDriver (list string)
    (λ cs s, (Ret (Some Sample.pool, None), s ++ ["open " +:+ cs]))
    (λ db idle opened lifetime s,
       (Ret tt, s ++ ["pool " +:+ Conn.Itoa idle +:+ " " +:+ Conn.Itoa opened
                        +:+ " " +:+ Conn.Itoa lifetime])).

(** A driver that refuses every connection string. *)
Definition refusing : Conn.sqlDriver (list string) :=
  Conn.mkSqlDriver (list string)
    (λ cs s, (Ret (None, Some (ErrOther "dial error")), s ++ ["open " +:+ cs]))
    (λ db idle opened lifetime s, (Ret tt, s)).

Definition empty_cache : Cache.dbCache := Cache.mkDbCache ∅.

End ConnSample.

(** * Properties *)

(** ** Configuration defaulting *)

Section ConfigFacts.
Import Config.

Lemma PatchDefaultConfig_fields (c : ConnConfig) :
  (PatchDefaultConfig c).2 =
  mkConnConfig (Host c)
    (if Port c =? 0 then 5432 else Port c)
    (User c) (Password c) (Database c)
    (if MaxIdleConns c =? 0 then 5 else MaxIdleConns c)
    (if MaxOpenConns c =? 0 then 20 else MaxOpenConns c)
    (if ConnMaxLifetimeSec c =? 0 then 3600 else ConnMaxLifetimeSec c)
    (DbLog c)
    (if String.eqb (Dialect c) "" then "mysql" else Dialect c).
Proof.
  destruct c as [h p u pw d mi mo lt lg di]. unfold PatchDefaultConfig. cbn.
  destruct (p =? 0); cbn; destruct (mi =? 0); cbn; destruct (mo =? 0); cbn;
    destruct (lt =? 0); cbn; destruct (String.eqb di ""); cbn;
    destruct (String.eqb d ""); reflexivity.
Qed.

Lemma PatchDefaultConfig_outcome (c : ConnConfig) :
  (PatchDefaultConfig c).1 =
  if String.eqb (Database c) "" then Panicked "database must be set" else Ret tt.
Proof.
  destruct c as [h p u pw d mi mo lt lg di]. unfold PatchDefaultConfig. cbn.
  destruct (p =? 0); cbn; destruct (mi =? 0); cbn; destruct (mo =? 0); cbn;
    destruct (lt =? 0); cbn; destruct (String.eqb di ""); cbn;
    destruct (String.eqb d ""); reflexivity.
Qed.

(** C9.  Defaulting a [ConnConfig] gives every unset (zero) field its
    default: port 5432, maxIdleConns 5, maxOpenConns 20, connMaxLifetimeSec
    3600, dialect "mysql"; every field that was set, and every field
    without a default, is as it was; and the call is fatal (it panics)
    exactly when the database name is empty. *)
Theorem C9_PatchDefaultConfig (c : ConnConfig) :
  let c' := (PatchDefaultConfig c).2 in
  Port c' = (if Port c =? 0 then 5432 else Port c)
  ∧ MaxIdleConns c' = (if MaxIdleConns c =? 0 then 5 else MaxIdleConns c)
  ∧ MaxOpenConns c' = (if MaxOpenConns c =? 0 then 20 else MaxOpenConns c)
  ∧ ConnMaxLifetimeSec c' =
      (if ConnMaxLifetimeSec c =? 0 then 3600 else ConnMaxLifetimeSec c)
  ∧ Dialect c' = (if String.eqb (Dialect c) "" then "mysql" else Dialect c)
  ∧ Host c' = Host c ∧ User c' = User c ∧ Password c' = Password c
  ∧ Database c' = Database c ∧ DbLog c' = DbLog c
  ∧ (PatchDefaultConfig c).1 =
      (if String.eqb (Database c) ""
       then Panicked "database must be set" else Ret tt).
Proof.
  cbv zeta. rewrite PatchDefaultConfig_fields, PatchDefaultConfig_outcome.
  cbn. repeat split.
Qed.

End ConfigFacts.

(** ** The engine *)

Ltac unfold_M :=
  unfold mbind, M_bind, mret, M_ret, panic, defer, deref, alloc, set_tx, emit,
    verdict, fresh_tx in *.

Lemma deref_Some (p : ptr) (c : transactionContext) (w : World) :
  carriers w !! p = Some c → deref p w = (Ret c, w).
Proof. intros H. unfold deref. by rewrite H. Qed.

Lemma live_ambient_not_none (cx : Context) (w : World) (p : ptr) (c : transactionContext) :
  live_ambient cx w p c → ¬ no_live_ambient cx w.
Proof.
  intros (-> & Hp & Hlive) (c' & Hp' & Hdead). congruence.
Qed.

Lemma in_transaction_tx (c : transactionContext) :
  InTransaction c = true →
  ∃ h, tx c = Some h ∧ gorm.is_committer (ConnPool h) = true.
Proof.
  unfold InTransaction. destruct (tx c) as [h|]; [eauto | discriminate].
Qed.

Lemma Transaction_Required (m : transactionManager) (cx : Context) (bizFn : bizFunc) :
  Transaction m cx bizFn [PropagationRequired] = withRequiredPropagation m cx bizFn.
Proof. reflexivity. Qed.

Lemma Transaction_RequiresNew (m : transactionManager) (cx : Context) (bizFn : bizFunc) :
  Transaction m cx bizFn [PropagationRequiresNew] = withRequiresNewPropagation m cx bizFn.
Proof. reflexivity. Qed.

Lemma Transaction_NotSupported (m : transactionManager) (cx : Context) (bizFn : bizFunc) :
  Transaction m cx bizFn [PropagationNotSupported] = withNotSupportedPropagation m cx bizFn.
Proof. reflexivity. Qed.

Lemma Transaction_Nested (m : transactionManager) (cx : Context) (bizFn : bizFunc) :
  Transaction m cx bizFn [PropagationNested] = withNestedPropagation m cx bizFn.
Proof. reflexivity. Qed.

(** The entry point with no mode is the entry point with [Required]. *)
Lemma Transaction_default (m : transactionManager) (cx : Context) (bizFn : bizFunc) :
  Transaction m cx bizFn [] = Transaction m cx bizFn [PropagationRequired].
Proof. reflexivity. Qed.

(** C4.  [Transaction] with mode [Mandatory] on a context without a live
    ambient transaction returns [ErrMandatoryPropWithoutTransaction], and
    with mode [Never] on a context with a live ambient transaction returns
    [ErrNeverPropInTransaction]; in both cases the world is left as it was,
    whatever [bizFn] would do: [bizFn] is not invoked. *)
Theorem C4_violation_before_bizFn
    (m : transactionManager) (cx : Context) (bizFn : bizFunc) (w : World) :
  (no_live_ambient cx w →
   Transaction m cx bizFn [PropagationMandatory] w
     = (Ret (Some ErrMandatoryPropWithoutTransaction), w))
  ∧ (∀ (p : ptr) (c : transactionContext),
       live_ambient cx w p c →
       Transaction m cx bizFn [PropagationNever] w
         = (Ret (Some ErrNeverPropInTransaction), w)).
Proof.
  split.
  - intros HM.
    change (withMandatoryPropagation m cx bizFn w
            = (Ret (Some ErrMandatoryPropWithoutTransaction), w)).
    unfold withMandatoryPropagation. destruct cx as [k|q]; [done|].
    destruct HM as (c' & Hq & Hdead).
    unfold mbind, M_bind. rewrite (deref_Some q c') by done. by rewrite Hdead.
  - intros p c (-> & Hp & Hlive).
    change (withNeverPropagation m (TxCtx p) bizFn w
            = (Ret (Some ErrNeverPropInTransaction), w)).
    unfold withNeverPropagation, mbind, M_bind.
    rewrite (deref_Some p c) by done. by rewrite Hlive.
Qed.

Lemma C4_violation_before_bizFn_witness :
  Transaction Sample.tm (PlainCtx 0) (Sample.biz_ok "u1") [PropagationMandatory]
    Sample.w_empty
    = (Ret (Some ErrMandatoryPropWithoutTransaction), Sample.w_empty)
  ∧ Transaction Sample.tm (TxCtx 0) (Sample.biz_ok "u2") [PropagationNever]
      Sample.w_live
    = (Ret (Some ErrNeverPropInTransaction), Sample.w_live).
Proof.
  split.
  - exact (proj1 (C4_violation_before_bizFn Sample.tm (PlainCtx 0)
             (Sample.biz_ok "u1") Sample.w_empty) I).
  - refine (proj2 (C4_violation_before_bizFn Sample.tm (TxCtx 0)
              (Sample.biz_ok "u2") Sample.w_live) 0%nat _ _).
    repeat split; reflexivity.
Defined.

(** C7.  On a context that carries no live ambient transaction, a [Nested]
    frame is a [Required] frame: for every [bizFn] the two return the same
    result and leave the same world, hence the same trace of driver calls. *)
Theorem C7_nested_without_ambient_is_required
    (m : transactionManager) (cx : Context) (bizFn : bizFunc) (w : World) :
  no_live_ambient cx w →
  Transaction m cx bizFn [PropagationNested] w
    = Transaction m cx bizFn [PropagationRequired] w.
Proof.
  intros H.
  change (withNestedPropagation m cx bizFn w = withRequiredPropagation m cx bizFn w).
  destruct cx as [k|p]; [done|].
  destruct H as (c & Hp & Hdead).
  unfold withNestedPropagation at 1. unfold mbind, M_bind.
  rewrite (deref_Some p c) by done. by rewrite Hdead.
Qed.

Lemma C7_nested_without_ambient_is_required_witness :
  Transaction Sample.tm (TxCtx 0) (Sample.biz_err "u1") [PropagationNested] Sample.w_stale
    = Transaction Sample.tm (TxCtx 0) (Sample.biz_err "u1") [PropagationRequired] Sample.w_stale.
Proof.
  apply (C7_nested_without_ambient_is_required Sample.tm (TxCtx 0)).
  eexists. split; reflexivity.
Defined.

(** *** GetDB *)

(** The factory of the repository hands out the cached pool bound to the
    context it is asked for. *)
Lemma GlobalCachedDBFactory_GetDB (db : DB) (cx : Context) :
  ∃ h, GetDB (GlobalCachedDBFactory db) cx = Some h
       ∧ StmtContext h = cx ∧ ConnPool h = ConnPool db.
Proof. eexists. repeat split. Qed.

(** C8, as stated, fails: carrier 0 of [Sample.w_stale] holds a handle that
    is no live transaction (its pool is no committer), so the context
    carries no live ambient transaction; [GetDB] returns that handle all the
    same, which is not the pool handle bound to the context. *)
Lemma C8_GetDB_counterexample :
  no_live_ambient (TxCtx 0) Sample.w_stale
  ∧ TransactionManager.GetDB Sample.tm (TxCtx 0) Sample.w_stale
      = (Ret (Some Sample.pool), Sample.w_stale)
  ∧ TransactionManager.GetDB Sample.tm (TxCtx 0) Sample.w_stale
      ≠ (Ret (GetDB (dBFactory Sample.tm) (TxCtx 0)), Sample.w_stale).
Proof.
  split; [|split].
  - eexists. split; reflexivity.
  - reflexivity.
  - vm_compute. intros H. discriminate H.
Qed.

(** C8, amended.  [GetDB(ctx)] returns the carrier's [tx] exactly when [ctx]
    is a carrier whose [tx] is not nil, live or not; in every other case it
    returns the handle [dBFactory.GetDB(ctx)] gives for [ctx].  The world
    is left as it was. *)
Theorem C8_GetDB_amended (m : transactionManager) (cx : Context) (w : World) :
  (∀ h, carries_tx cx w h →
        TransactionManager.GetDB m cx w = (Ret (Some h), w))
  ∧ (carries_no_tx cx w →
        TransactionManager.GetDB m cx w = (Ret (GetDB (dBFactory m) cx), w)).
Proof.
  split.
  - intros h (p & c & -> & Hp & Htx).
    unfold TransactionManager.GetDB, mbind, M_bind.
    rewrite (deref_Some p c) by done. by rewrite Htx.
  - destruct cx as [k|p]; [done|]. intros (c & Hp & Htx).
    unfold TransactionManager.GetDB, mbind, M_bind.
    rewrite (deref_Some p c) by done. by rewrite Htx.
Qed.

Lemma C8_GetDB_amended_witness :
  TransactionManager.GetDB Sample.tm (TxCtx 0) Sample.w_live
    = (Ret (Some (Sample.handle 0)), Sample.w_live)
  ∧ TransactionManager.GetDB Sample.tm (PlainCtx 7) Sample.w_live
    = (Ret (Some (gorm.bound Sample.pool (PlainCtx 7))), Sample.w_live).
Proof.
  split.
  - apply (proj1 (C8_GetDB_amended Sample.tm (TxCtx 0) Sample.w_live)).
    exists 0%nat. eexists. repeat split; reflexivity.
  - apply (proj2 (C8_GetDB_amended Sample.tm (PlainCtx 7) Sample.w_live)).
    exact I.
Defined.

(** *** The driver calls, run *)

Lemma bind_run {A B : Type} (x : M A) (f : A → M B) (w w1 : World) (a : A) :
  x w = (Ret a, w1) → (x ≫= f) w = f a w1.
Proof. intros H. unfold mbind, M_bind. by rewrite H. Qed.

Lemma bind_panicked {A B : Type} (x : M A) (f : A → M B) (w w1 : World) (v : string) :
  x w = (Panicked v, w1) → (x ≫= f) w = (Panicked v, w1).
Proof. intros H. unfold mbind, M_bind. by rewrite H. Qed.

Lemma Commit_run (t : DB) (w : World) :
  gorm.Commit (Some t) w =
  (Ret (head_verdict w), logged [EvCommit t (head_verdict w)] (consumed w)).
Proof.
  unfold gorm.Commit, gorm.on_handle, head_verdict, logged, consumed.
  unfold_M. by destruct w as [cs lg n [|r s]].
Qed.

Lemma SavePoint_run (t : DB) (name : string) (w : World) :
  gorm.SavePoint (Some t) name w =
  (Ret (head_verdict w), logged [EvSavePoint t name (head_verdict w)] (consumed w)).
Proof.
  unfold gorm.SavePoint, gorm.on_handle, head_verdict, logged, consumed.
  unfold_M. by destruct w as [cs lg n [|r s]].
Qed.

Lemma Rollback_run (t : DB) (w : World) :
  gorm.Rollback (Some t) w = (Ret tt, logged [EvRollback t] w).
Proof. reflexivity. Qed.

Lemma RollbackTo_run (t : DB) (name : string) (w : World) :
  gorm.RollbackTo (Some t) name w = (Ret tt, logged [EvRollbackTo t name] w).
Proof. reflexivity. Qed.

(** A [Begin] the driver accepts opens the transaction [next_tx]. *)
Lemma Begin_run (db : DB) (w : World) :
  head_verdict w = None →
  gorm.Begin (Some db) w = (Ret (Some (begun db w)), after_begin (begun db w) (carriers w) w).
Proof.
  unfold gorm.Begin, gorm.on_handle, head_verdict, begun, after_begin.
  unfold_M. destruct w as [cs lg n [|r s]]; cbn; [done|]. by intros ->.
Qed.

(** A [Begin] the driver refuses opens nothing. *)
Lemma Begin_refused (db : DB) (e : error) (w : World) :
  head_verdict w = Some e →
  let t := mkDB (ConnPool db) (Some e) (StmtContext db) (DisableNestedTransaction db) in
  gorm.Begin (Some db) w = (Ret (Some t), logged [EvBegin t] (consumed w)).
Proof.
  unfold gorm.Begin, gorm.on_handle, head_verdict, logged, consumed.
  unfold_M. destruct w as [cs lg n [|r s]]; cbn; [done|]. by intros ->.
Qed.

Lemma Session_run (p : ptr) (c : transactionContext) (h : DB) (w : World) :
  carriers w !! p = Some c → tx c = Some h →
  Session p w = (Ret (length (carriers w)), stored (session_of p c) w).
Proof.
  intros Hp Htx. unfold Session.
  rewrite (bind_run _ _ w w c) by by apply deref_Some.
  unfold session_of. rewrite Htx. reflexivity.
Qed.

(** *** Frames that own a transaction *)

Lemma owns_in_transaction (p : ptr) (t : DB) (w : World) :
  owns p t w →
  ∃ c, carriers w !! p = Some c ∧ tx c = Some t
       ∧ InTransaction c = true ∧ IsRoot c = true ∧ TxError c = None.
Proof.
  intros (c & Hp & Htx & Hpar & Hcom & Herr). exists c.
  unfold InTransaction, IsRoot, TxError. rewrite Htx, Hpar. by repeat split.
Qed.

Lemma Rollback_owned (p : ptr) (t : DB) (w : World) :
  owns p t w → Rollback p w = (Ret tt, logged [EvRollback t] w).
Proof.
  intros Hown.
  destruct (owns_in_transaction p t w Hown) as (c & Hp & Htx & Hlive & Hroot & _).
  unfold Rollback. rewrite (bind_run _ _ w w c) by by apply deref_Some.
  by rewrite Hlive, Hroot, Htx.
Qed.

Lemma Commit_owned (p : ptr) (t : DB) (w : World) :
  owns p t w →
  Commit p w =
  (Ret (head_verdict w), logged [EvCommit t (head_verdict w)] (consumed w)).
Proof.
  intros Hown.
  destruct (owns_in_transaction p t w Hown) as (c & Hp & Htx & Hlive & Hroot & _).
  unfold Commit. rewrite (bind_run _ _ w w c) by by apply deref_Some.
  rewrite Hlive, Hroot, Htx. apply Commit_run.
Qed.

Lemma owns_same_carriers (p : ptr) (t : DB) (w w' : World) :
  carriers w' !! p = carriers w !! p → owns p t w → owns p t w'.
Proof. intros Heq (c & Hp & H). exists c. by rewrite Heq. Qed.

(** A frame that owns [t] commits when [bizFn] returns nil, and rolls back
    when it returns an error, when it panics, and when the commit fails. *)
Lemma run_owned_exit (p : ptr) (t : DB) (bizFn : bizFunc)
    (w w3 : World) (o : Outcome (option error)) :
  owns p t w →
  call bizFn (TxCtx p) (Some t) w = (o, w3) →
  carriers w3 !! p = carriers w !! p →
  run_owned p bizFn w = owned_exit t o w3.
Proof.
  intros Hown Hcall Hkept.
  pose proof (owns_same_carriers p t w w3 Hkept Hown) as Hown3.
  destruct (owns_in_transaction p t w Hown) as (c & Hp & Htx & _ & _ & Herr).
  unfold run_owned, defer.
  rewrite (bind_run _ _ w w c) by by apply deref_Some.
  rewrite Herr, Htx.
  destruct o as [[e|]|v].
  - rewrite (bind_run _ _ w w3 (Some e)) by done. cbn.
    by rewrite (Rollback_owned p t w3).
  - rewrite (bind_run _ _ w w3 None) by done.
    rewrite (Commit_owned p t w3) by done. unfold owned_exit.
    destruct (head_verdict w3) as [e|]; cbn; [|done].
    rewrite (Rollback_owned p t) by by apply (owns_same_carriers p t w3).
    unfold logged, consumed. cbn. by rewrite <- app_assoc.
  - rewrite (bind_panicked _ _ w w3 v) by done. cbn.
    by rewrite (Rollback_owned p t w3).
Qed.

Lemma owns_opened (cx : Context) (db : DB) (w : World) :
  no_live_ambient cx w → not_a_child cx w →
  owns (opened_carrier cx w) (begun db w)
       (after_begin (begun db w) (opened_store cx (begun db w) w) w).
Proof.
  intros Hnone Hroot. destruct cx as [k|p]; cbn.
  - eexists. split; [by apply list_lookup_middle|]. by repeat split.
  - destruct Hnone as (c & Hp & _). rewrite Hp.
    eexists. split; [apply list_lookup_insert_eq; by eapply lookup_lt_Some|].
    cbn. repeat split. by apply Hroot.
Qed.

Lemma required_opens (m : transactionManager) (cx : Context) (bizFn : bizFunc)
    (db : DB) (w : World) :
  no_live_ambient cx w → getPureDB m cx = Some db → head_verdict w = None →
  withRequiredPropagation m cx bizFn w =
  run_owned (opened_carrier cx w) bizFn
    (after_begin (begun db w) (opened_store cx (begun db w) w) w).
Proof.
  intros Hnone Hdb Hok. unfold withRequiredPropagation. rewrite Hdb.
  destruct cx as [k|p].
  - rewrite (bind_run _ _ _ _ _ (Begin_run db w Hok)). reflexivity.
  - destruct Hnone as (c & Hp & Hdead).
    rewrite (bind_run _ _ w w c) by by apply deref_Some.
    rewrite Hdead.
    rewrite (bind_run _ _ _ _ _ (Begin_run db w Hok)).
    cbn -[run_owned]. rewrite Hp.
    erewrite bind_run; [reflexivity|].
    unfold set_tx. cbn. by rewrite Hp.
Qed.

Lemma requires_new_opens (m : transactionManager) (cx pureCtx : Context)
    (bizFn : bizFunc) (db : DB) (w : World) :
  wrapped_ctx cx w = Some pureCtx →
  getPureDB m pureCtx = Some db → head_verdict w = None →
  withRequiresNewPropagation m cx bizFn w =
  run_owned (length (carriers w)) bizFn
    (after_begin (begun db w)
       (carriers w ++ [mkTransactionContext cx (Some (begun db w)) None]) w).
Proof.
  intros Hpure Hdb Hok. unfold withRequiresNewPropagation.
  assert (match cx with
          | TxCtx p => txCtx ← deref p; mret (Ctx txCtx)
          | PlainCtx _ => mret cx
          end w = (Ret pureCtx, w)) as Hstrip.
  { destruct cx as [k|p]; cbn in Hpure.
    - by injection Hpure as <-.
    - destruct (carriers w !! p) as [c|] eqn:Hp; [|done].
      injection Hpure as <-.
      by rewrite (bind_run _ _ w w c) by by apply deref_Some. }
  rewrite (bind_run _ _ _ _ _ Hstrip). rewrite Hdb.
  rewrite (bind_run _ _ _ _ _ (Begin_run db w Hok)). reflexivity.
Qed.

Lemma owns_allocated (c0 : Context) (t : DB) (store : list transactionContext) (w : World) :
  gorm.is_committer (ConnPool t) = true → Error t = None →
  owns (length store) t
    (after_begin t (store ++ [mkTransactionContext c0 (Some t) None]) w).
Proof.
  intros Hcom Herr. eexists. split; [by apply list_lookup_middle|]. by repeat split.
Qed.

(** A frame that opens a transaction of its own owns it and runs as such. *)
Lemma opens_root_run (m : transactionManager) (cx : Context) (bizFn : bizFunc)
    (w : World) (mode : TransactionPropagation) (t : DB) (r : ptr) (w2 : World) :
  opens_root m cx w mode t r w2 →
  owns r t w2 ∧ log w2 = log w ++ [EvBegin t]
  ∧ Transaction m cx bizFn [mode] w = run_owned r bizFn w2.
Proof.
  intros [db Hnone Hroot Hdb Hok | db pureCtx Hpure Hdb Hok].
  - split; [by apply owns_opened|]. split; [done|]. by apply required_opens.
  - split; [by apply owns_allocated|]. split; [done|].
    by apply (requires_new_opens m cx pureCtx).
Qed.

(** A [Required] frame whose BEGIN the driver refuses still makes or
    re-binds its carrier, with the handle that holds the error. *)
Lemma required_refused (m : transactionManager) (cx : Context) (bizFn : bizFunc)
    (db : DB) (e : error) (w : World) :
  no_live_ambient cx w → getPureDB m cx = Some db → head_verdict w = Some e →
  withRequiredPropagation m cx bizFn w =
  run_owned (opened_carrier cx w) bizFn
    (after_refusal (refused db e) (opened_store cx (refused db e) w) w).
Proof.
  intros Hnone Hdb Hno. unfold withRequiredPropagation. rewrite Hdb.
  destruct cx as [k|p].
  - rewrite (bind_run _ _ _ _ _ (Begin_refused db e w Hno)). reflexivity.
  - destruct Hnone as (c & Hp & Hdead).
    rewrite (bind_run _ _ w w c) by by apply deref_Some.
    rewrite Hdead.
    rewrite (bind_run _ _ _ _ _ (Begin_refused db e w Hno)).
    cbn -[run_owned]. rewrite Hp.
    erewrite bind_run; [reflexivity|].
    unfold set_tx. cbn. by rewrite Hp.
Qed.

(** The carrier of a frame once its BEGIN is made, accepted or refused. *)
Lemma opened_lookup (cx : Context) (t : DB) (w : World) :
  no_live_ambient cx w →
  ∃ c, opened_store cx t w !! opened_carrier cx w = Some c ∧ tx c = Some t
       ∧ (not_a_child cx w → parent c = None)
       ∧ ∀ p c0, cx = TxCtx p → carriers w !! p = Some c0 →
           ctx c = ctx c0 ∧ parent c = parent c0.
Proof.
  intros Hnone. destruct cx as [k|p]; cbn.
  - eexists. split; [by apply list_lookup_middle|]. by repeat split.
  - destruct Hnone as (c & Hp & _). rewrite Hp.
    eexists. split; [apply list_lookup_insert_eq; by eapply lookup_lt_Some|].
    cbn. split; [done|]. split; [by intros Hroot; apply Hroot|].
    intros q c0 Hq Hc0. injection Hq as <-. rewrite Hp in Hc0.
    by injection Hc0 as <-.
Qed.

(** A frame whose handle holds an error does not run [bizFn]: it returns
    that error, after a ROLLBACK when the carrier is a root and the handle a
    committer. *)
Lemma run_owned_refused (p : ptr) (c : transactionContext) (t : DB) (e : error)
    (bizFn : bizFunc) (w : World) :
  carriers w !! p = Some c → tx c = Some t → Error t = Some e →
  run_owned p bizFn w =
  (Ret (Some e),
   if gorm.is_committer (ConnPool t) && IsRoot c
   then logged [EvRollback t] w else w).
Proof.
  intros Hp Htx Herr.
  assert (Rollback p w =
          (Ret tt, if gorm.is_committer (ConnPool t) && IsRoot c
                   then logged [EvRollback t] w else w)) as Hrb.
  { unfold Rollback. rewrite (bind_run _ _ w w c) by by apply deref_Some.
    unfold InTransaction. rewrite Htx.
    by destruct (gorm.is_committer (ConnPool t) && IsRoot c). }
  unfold run_owned, defer.
  rewrite (bind_run _ _ w w c) by by apply deref_Some.
  unfold TxError. rewrite Htx, Herr.
  rewrite (bind_run _ _ w w (Some e)) by done.
  unfold mret at 1, M_ret at 1. cbv beta iota zeta.
  change (panicked_or_err (Ret (Some e))) with true. cbv iota.
  by rewrite Hrb.
Qed.

(** *** Required on a context without a live ambient transaction *)

(** C1, as stated, fails on two inputs.  When the driver refuses the BEGIN,
    [bizFn] is not invoked: the frame returns the driver's error and the
    trace holds the BEGIN alone.  When the context is a child carrier that
    is not in a transaction, the frame binds the new transaction to that
    carrier, which is no root: [bizFn] returns an error and no ROLLBACK
    follows. *)
Lemma C1_required_root_counterexample :
  (no_live_ambient (PlainCtx 0) Sample.w_refusing
   ∧ let out := Transaction Sample.tm (PlainCtx 0) (Sample.biz_ok "u1")
                  [PropagationRequired] Sample.w_refusing in
     out.1 = Ret (Some (ErrOther "driver error"))
     ∧ log out.2 =
         [EvBegin (mkDB PoolDB (Some (ErrOther "driver error")) (PlainCtx 0) false)])
  ∧ (no_live_ambient (TxCtx 1) Sample.w_stale_child
     ∧ let out := Transaction Sample.tm (TxCtx 1) (Sample.biz_err "u1")
                    [PropagationRequired] Sample.w_stale_child in
       let t := mkDB (PoolTx 0) None (TxCtx 1) false in
       out.1 = Ret (Some Sample.mockErr)
       ∧ log out.2 = [EvBegin t; EvBiz (TxCtx 1) (Some t) "u1"]
       ∧ (parent <$> carriers out.2 !! 1%nat) = Some (Some 0%nat)).
Proof.
  split.
  - split; [exact I|]. cbv zeta. split; reflexivity.
  - split; [eexists; split; reflexivity|]. cbv zeta. repeat split.
Qed.

(** C1, amended.  A [Required] frame on a context that carries no live
    ambient transaction, and that is not a child carrier, takes a handle
    from the factory and issues BEGIN.  When the driver accepts it, the
    frame runs [bizFn] on a root carrier of the new transaction [t] (a new
    carrier, or the carrier the context is, bound to [t]), with the BEGIN
    the only call issued so far; with [bizFn] leaving that carrier as it
    is: if [bizFn] returns an error or panics, the frame issues ROLLBACK on
    [t] and returns the error or goes on unwinding; otherwise it issues
    COMMIT on [t] and returns the commit result.  When the driver refuses
    the BEGIN, [bizFn] is not run, whatever it is, and the frame returns the
    error of the BEGIN. *)
Theorem C1_required_root_amended
    (m : transactionManager) (cx : Context) (bizFn : bizFunc) (db : DB)
    (w : World) :
  no_live_ambient cx w → not_a_child cx w →
  getPureDB m cx = Some db →
  let r := opened_carrier cx w in
  (head_verdict w = None →
   let t := begun db w in
   let w2 := after_begin t (opened_store cx t w) w in
   owns r t w2
   ∧ log w2 = log w ++ [EvBegin t]
   ∧ ∀ (o : Outcome (option error)) (w3 : World),
       call bizFn (TxCtx r) (Some t) w2 = (o, w3) →
       carriers w3 !! r = carriers w2 !! r →
       Transaction m cx bizFn [PropagationRequired] w =
         match o with
         | Ret None =>
             (Ret (head_verdict w3),
              logged (EvCommit t (head_verdict w3)
                        :: match head_verdict w3 with
                           | Some _ => [EvRollback t]
                           | None => []
                           end)
                     (consumed w3))
         | Ret (Some e) => (Ret (Some e), logged [EvRollback t] w3)
         | Panicked v => (Panicked v, logged [EvRollback t] w3)
         end)
  ∧ (∀ e : error, head_verdict w = Some e →
     let t := refused db e in
     let w2 := after_refusal t (opened_store cx t w) w in
     Transaction m cx bizFn [PropagationRequired] w =
       (Ret (Some e),
        if gorm.is_committer (ConnPool db) then logged [EvRollback t] w2 else w2)).
Proof.
  intros Hnone Hroot Hdb r. split.
  - intros Hok t w2.
    pose proof (owns_opened cx db w Hnone Hroot) as Hown.
    split; [done|]. split; [done|]. intros o w3 Hcall Hkept.
    rewrite Transaction_Required.
    rewrite (required_opens m cx bizFn db w) by done.
    rewrite (run_owned_exit _ t bizFn _ w3 o) by done.
    destruct o as [[e|]|v]; try reflexivity.
    unfold owned_exit. by destruct (head_verdict w3).
  - intros e Hno t w2. rewrite Transaction_Required.
    rewrite (required_refused m cx bizFn db e w) by done.
    destruct (opened_lookup cx t w Hnone) as (c & Hc & Htx & Hpar & _).
    subst r t w2.
    rewrite (run_owned_refused (opened_carrier cx w) c (refused db e) e bizFn
               (after_refusal (refused db e) (opened_store cx (refused db e) w) w))
      by done.
    unfold IsRoot. rewrite (Hpar Hroot). by rewrite andb_true_r.
Qed.

Lemma C1_required_root_amended_witness :
  Transaction Sample.tm (PlainCtx 0) (Sample.biz_err "u1") [PropagationRequired]
    Sample.w_empty
  = (Ret (Some Sample.mockErr),
     mkWorld [mkTransactionContext (PlainCtx 0) (Some (Sample.handle 0)) None]
       [EvBegin (Sample.handle 0);
        EvBiz (TxCtx 0) (Some (Sample.handle 0)) "u1";
        EvRollback (Sample.handle 0)] 1 [])
  ∧ Transaction Sample.tm (PlainCtx 0) (Sample.biz_err "u1") [PropagationRequired]
      Sample.w_refusing
    = (Ret (Some (ErrOther "driver error")),
       mkWorld
         [mkTransactionContext (PlainCtx 0)
            (Some (mkDB PoolDB (Some (ErrOther "driver error")) (PlainCtx 0) false))
            None]
         [EvBegin (mkDB PoolDB (Some (ErrOther "driver error")) (PlainCtx 0) false)]
         0 []).
Proof.
  split.
  - refine (proj2 (proj2 (proj1 (C1_required_root_amended Sample.tm (PlainCtx 0)
      (Sample.biz_err "u1") (gorm.bound Sample.pool (PlainCtx 0)) Sample.w_empty
      I I eq_refl) eq_refl)) _ _ eq_refl eq_refl).
  - refine (proj2 (C1_required_root_amended Sample.tm (PlainCtx 0)
      (Sample.biz_err "u1") (gorm.bound Sample.pool (PlainCtx 0)) Sample.w_refusing
      I I eq_refl) (ErrOther "driver error") eq_refl).
Defined.

(** *** A commit that fails *)

(** C3, as stated, fails: [bizFn] returns nil, the driver refuses the
    COMMIT, and the frame, having returned the commit error, calls ROLLBACK
    on the same handle; in a [Required] root frame and in a [RequiresNew]
    frame alike. *)
Lemma C3_commit_error_counterexample :
  let t := Sample.handle 0 in
  let e := ErrOther "commit failed" in
  let trace := [EvBegin t; EvBiz (TxCtx 0) (Some t) "u1";
                EvCommit t (Some e); EvRollback t] in
  let required := Transaction Sample.tm (PlainCtx 0) (Sample.biz_ok "u1")
                    [PropagationRequired] Sample.w_commit_fails in
  let requires_new := Transaction Sample.tm (PlainCtx 0) (Sample.biz_ok "u1")
                        [PropagationRequiresNew] Sample.w_commit_fails in
  (required.1 = Ret (Some e) ∧ log required.2 = trace)
  ∧ (requires_new.1 = Ret (Some e) ∧ log requires_new.2 = trace)
  ∧ EvRollback t ∈ log required.2.
Proof.
  cbv zeta. split; [split; reflexivity|]. split; [split; reflexivity|].
  vm_compute. do 3 apply list_elem_of_further. apply list_elem_of_here.
Qed.

(** C3, amended.  In a frame that opens a transaction of its own (a
    [Required] frame on a context that carries no live ambient transaction,
    or a [RequiresNew] frame), when [bizFn] returns nil and the COMMIT
    fails, the commit error is what the frame returns in place of nil, and
    the frame then calls ROLLBACK on the same handle. *)
Theorem C3_commit_error_amended
    (m : transactionManager) (cx : Context) (bizFn : bizFunc)
    (mode : TransactionPropagation) (t : DB) (r : ptr)
    (w w2 w3 : World) (e : error) :
  opens_root m cx w mode t r w2 →
  call bizFn (TxCtx r) (Some t) w2 = (Ret None, w3) →
  carriers w3 !! r = carriers w2 !! r →
  head_verdict w3 = Some e →
  Transaction m cx bizFn [mode] w =
    (Ret (Some e), logged [EvCommit t (Some e); EvRollback t] (consumed w3)).
Proof.
  intros Hopen Hcall Hkept Hfail.
  destruct (opens_root_run m cx bizFn w mode t r w2 Hopen) as (Hown & _ & ->).
  rewrite (run_owned_exit r t bizFn w2 w3 (Ret None)) by done.
  unfold owned_exit. by rewrite Hfail.
Qed.

Lemma C3_commit_error_amended_witness :
  Transaction Sample.tm (PlainCtx 0) (Sample.biz_ok "u1") [PropagationRequiresNew]
    Sample.w_commit_fails
  = (Ret (Some (ErrOther "commit failed")),
     mkWorld [mkTransactionContext (PlainCtx 0) (Some (Sample.handle 0)) None]
       [EvBegin (Sample.handle 0);
        EvBiz (TxCtx 0) (Some (Sample.handle 0)) "u1";
        EvCommit (Sample.handle 0) (Some (ErrOther "commit failed"));
        EvRollback (Sample.handle 0)] 1 []).
Proof.
  refine (C3_commit_error_amended Sample.tm (PlainCtx 0) (Sample.biz_ok "u1")
    PropagationRequiresNew _ _ Sample.w_commit_fails _ _ _
    (opens_requires_new Sample.tm (PlainCtx 0) Sample.w_commit_fails
       (gorm.bound Sample.pool (PlainCtx 0)) (PlainCtx 0) eq_refl eq_refl eq_refl)
    eq_refl eq_refl eq_refl).
Defined.

(** *** Nested on a live ambient transaction *)

(** Frames of different identity set savepoints of different names. *)
Lemma savepoint_name_inj (f g : bizFunc) :
  savepoint_name f = savepoint_name g → addr f = addr g.
Proof.
  unfold savepoint_name. intros H.
  injection H as H. unfold String.app in H. simpl in H.
  apply (f_equal HexString.to_N) in H.
  by rewrite !HexString.to_N_of_N in H.
Qed.



(** *** RequiresNew and NotSupported inside a live transaction *)

(** What a frame that owns [t] adds to the trace once [bizFn] is left are
    calls on [t] alone. *)
Lemma owned_exit_trace (t : DB) (o : Outcome (option error)) (w : World) :
  ∃ es, log (owned_exit t o w).2 = log w ++ es
        ∧ Forall (λ ev, event_handle ev = Some t) es.
Proof.
  unfold owned_exit. destruct o as [[e|]|v]; [| destruct (head_verdict w) |];
    eexists; (split; [reflexivity|]); repeat constructor.
Qed.

(** C5, as stated, fails: inside the live transaction of carrier 0, a
    [RequiresNew] frame runs [bizFn] on carrier 1, whose parent is empty
    (the outer carrier is what its [ctx] field holds), and a [NotSupported]
    frame constructs no carrier at all: [bizFn] receives the plain context
    the outer carrier wraps. *)
Lemma C5_suspending_frames_counterexample :
  live_ambient (TxCtx 0) Sample.w_live 0
    (mkTransactionContext (PlainCtx 0) (Some (Sample.handle 0)) None)
  ∧ (let out := Transaction Sample.tm (TxCtx 0) (Sample.biz_ok "u2")
                  [PropagationRequiresNew] Sample.w_live in
     let t := Sample.handle 1 in
     log out.2 = [EvBegin t; EvBiz (TxCtx 1) (Some t) "u2"; EvCommit t None]
     ∧ carriers out.2 !! 1%nat = Some (mkTransactionContext (TxCtx 0) (Some t) None)
     ∧ (parent <$> carriers out.2 !! 1%nat) ≠ Some (Some 0%nat))
  ∧ (let out := Transaction Sample.tm (TxCtx 0) (Sample.biz_ok "u2")
                  [PropagationNotSupported] Sample.w_live in
     carriers out.2 = carriers Sample.w_live
     ∧ log out.2 =
         [EvBiz (PlainCtx 0) (Some (gorm.bound Sample.pool (PlainCtx 0))) "u2"]).
Proof.
  split; [by repeat split|]. cbv zeta. split.
  - split; [reflexivity|]. split; [reflexivity|]. vm_compute. discriminate.
  - split; reflexivity.
Qed.

(** C5, amended.  Inside a live outer transaction, a [RequiresNew] frame
    whose BEGIN the driver accepts constructs a root carrier: its parent is
    empty, its [ctx] field is the outer carrier, and its [tx] is a
    transaction begun on the handle the factory gives for the context the
    outer carrier wraps, which is not the outer physical transaction (every
    transaction a carrier holds having been opened by the driver); the
    frame runs [bizFn] on that carrier, and, with [bizFn] leaving that
    carrier as it is, the calls the frame issues once [bizFn] is left are
    calls on the new handle alone.  A [NotSupported] frame constructs no
    carrier and issues no call: it runs [bizFn] on the context the outer
    carrier wraps, with the handle the factory gives for that context. *)
Theorem C5_suspending_frames_amended
    (m : transactionManager) (p : ptr) (c : transactionContext)
    (bizFn : bizFunc) (w : World) :
  live_ambient (TxCtx p) w p c →
  (∀ db : DB,
     getPureDB m (ctx c) = Some db →
     head_verdict w = None →
     let t := begun db w in
     let r := length (carriers w) in
     let w2 := after_begin t
                 (carriers w ++ [mkTransactionContext (TxCtx p) (Some t) None]) w in
     carriers w2 !! r = Some (mkTransactionContext (TxCtx p) (Some t) None)
     ∧ carriers w2 !! p = Some c
     ∧ log w2 = log w ++ [EvBegin t]
     ∧ (tx_ids_below w → ∀ h, tx c = Some h → ConnPool t ≠ ConnPool h)
     ∧ Transaction m (TxCtx p) bizFn [PropagationRequiresNew] w
         = run_owned r bizFn w2
     ∧ ∀ (o : Outcome (option error)) (w3 : World),
         call bizFn (TxCtx r) (Some t) w2 = (o, w3) →
         carriers w3 !! r = carriers w2 !! r →
         Transaction m (TxCtx p) bizFn [PropagationRequiresNew] w = owned_exit t o w3
         ∧ ∃ es, log (owned_exit t o w3).2 = log w3 ++ es
                 ∧ Forall (λ ev, event_handle ev = Some t) es)
  ∧ Transaction m (TxCtx p) bizFn [PropagationNotSupported] w
      = call bizFn (ctx c) (getPureDB m (ctx c)) w.
Proof.
  intros (_ & Hp & Hlive). split.
  - intros db Hdb Hok t r w2.
    assert (carriers w2 !! r = Some (mkTransactionContext (TxCtx p) (Some t) None))
      as Hr by by apply list_lookup_middle.
    assert (Transaction m (TxCtx p) bizFn [PropagationRequiresNew] w
            = run_owned r bizFn w2) as Hrun.
    { rewrite Transaction_RequiresNew.
      apply (requires_new_opens m (TxCtx p) (ctx c)); [|done..].
      cbn. by rewrite Hp. }
    split; [done|]. split; [by apply lookup_app_l_Some|]. split; [done|]. split.
    { intros Hids h Hh Heq. cbn in Heq.
      pose proof (Hids p c h (next_tx w) Hp Hh (eq_sym Heq)). lia. }
    split; [done|]. intros o w3 Hcall Hkept. split; [|apply owned_exit_trace].
    rewrite Hrun. apply run_owned_exit; [|done..]. by apply owns_allocated.
  - rewrite Transaction_NotSupported. unfold withNotSupportedPropagation.
    erewrite bind_run; [|by erewrite bind_run by by apply deref_Some].
    reflexivity.
Qed.

Lemma C5_suspending_frames_amended_witness :
  Transaction Sample.tm (TxCtx 0) (Sample.biz_ok "u2") [PropagationRequiresNew]
    Sample.w_live
  = (Ret None,
     mkWorld
       [mkTransactionContext (PlainCtx 0) (Some (Sample.handle 0)) None;
        mkTransactionContext (TxCtx 0) (Some (Sample.handle 1)) None]
       [EvBegin (Sample.handle 1);
        EvBiz (TxCtx 1) (Some (Sample.handle 1)) "u2";
        EvCommit (Sample.handle 1) None] 2 [])
  ∧ (∀ h, Some (Sample.handle 0) = Some h → ConnPool (Sample.handle 1) ≠ ConnPool h)
  ∧ Transaction Sample.tm (TxCtx 0) (Sample.biz_ok "u2") [PropagationNotSupported]
      (mkWorld (carriers Sample.w_live) [] 1 [Some (ErrOther "driver error")])
    = (Ret None,
       mkWorld (carriers Sample.w_live)
         [EvBiz (PlainCtx 0) (Some (gorm.bound Sample.pool (PlainCtx 0))) "u2"]
         1 [Some (ErrOther "driver error")]).
Proof.
  assert (tx_ids_below Sample.w_live) as Hids.
  { intros [|[|q]] c h n Hq Hh Hn; try discriminate Hq.
    injection Hq as <-. injection Hh as <-. injection Hn as <-. cbn. lia. }
  pose proof (proj1 (C5_suspending_frames_amended Sample.tm 0%nat _
    (Sample.biz_ok "u2") Sample.w_live (conj eq_refl (conj eq_refl eq_refl)))
    (gorm.bound Sample.pool (PlainCtx 0)) eq_refl eq_refl)
    as (_ & _ & _ & Hfresh & _ & Hexit).
  split; [|split].
  - exact (proj1 (Hexit _ _ eq_refl eq_refl)).
  - exact (Hfresh Hids).
  - refine (proj2 (C5_suspending_frames_amended Sample.tm 0%nat _
      (Sample.biz_ok "u2")
      (mkWorld (carriers Sample.w_live) [] 1 [Some (ErrOther "driver error")])
      (conj eq_refl (conj eq_refl eq_refl)))).
Defined.

(** *** What the engine does to the carriers that exist *)

Lemma carriers_kept_same (w w' : World) :
  carriers w' = carriers w → carriers_kept w w'.
Proof. intros Heq p c Hp. exists c. by rewrite Heq. Qed.

Lemma carriers_kept_refl (w : World) : carriers_kept w w.
Proof. by apply carriers_kept_same. Qed.

Lemma carriers_kept_app (w w' : World) (l : list transactionContext) :
  carriers w' = carriers w ++ l → carriers_kept w w'.
Proof.
  intros Heq p c Hp. exists c. rewrite Heq. split; [by apply lookup_app_l_Some|done].
Qed.

Lemma InTransaction_tx (c c' : transactionContext) :
  tx c' = tx c → InTransaction c' = InTransaction c.
Proof. unfold InTransaction. by intros ->. Qed.

Lemma carriers_kept_trans (w w' w'' : World) :
  carriers_kept w w' → carriers_kept w' w'' → carriers_kept w w''.
Proof.
  intros H1 H2 p c Hp.
  destruct (H1 p c Hp) as (c' & Hp' & Hctx & Hpar & Htx).
  destruct (H2 p c' Hp') as (c'' & Hp'' & Hctx' & Hpar' & Htx').
  exists c''. split; [done|]. split; [by rewrite Hctx'|].
  split; [by rewrite Hpar'|].
  intros Hlive. rewrite Htx'; [by apply Htx|].
  rewrite (InTransaction_tx c c'); [done|]. by apply Htx.
Qed.

(** Re-binding the [tx] of a carrier that is not in a transaction. *)
Lemma carriers_kept_set_tx (p : ptr) (c : transactionContext) (h : option DB) (w : World) :
  carriers w !! p = Some c → InTransaction c = false →
  carriers_kept w (set_tx p h w).2.
Proof.
  intros Hp Hdead q c0 Hq. unfold set_tx. rewrite Hp. cbn.
  destruct (decide (p = q)) as [<-|Hne].
  - rewrite list_lookup_insert_eq by by eapply lookup_lt_Some.
    eexists. split; [done|]. cbn. replace c0 with c by congruence.
    repeat split. by rewrite Hdead.
  - rewrite list_lookup_insert_ne by done. by exists c0.
Qed.

Lemma kept_bind {A B : Type} (x : M A) (f : A → M B) (w : World) :
  carriers_kept w (x w).2 →
  (∀ a w1, x w = (Ret a, w1) → carriers_kept w1 (f a w1).2) →
  carriers_kept w ((x ≫= f) w).2.
Proof.
  intros Hx Hf. unfold mbind, M_bind.
  destruct (x w) as [[a|v] w1] eqn:Hxw; [|done].
  eapply carriers_kept_trans; [exact Hx|]. by apply Hf.
Qed.

Lemma kept_defer {A : Type} (cleanup : Outcome A → M unit) (body : M A) (w : World) :
  carriers_kept w (body w).2 →
  (∀ o w1, body w = (o, w1) → carriers_kept w1 (cleanup o w1).2) →
  carriers_kept w (defer cleanup body w).2.
Proof.
  intros Hb Hc. unfold defer.
  destruct (body w) as [o w1] eqn:Hbw.
  pose proof (Hc o w1 eq_refl) as Hc1.
  destruct (cleanup o w1) as [[u|v] w2]; by eapply carriers_kept_trans.
Qed.

Lemma untouched_bind {A B : Type} (x : M A) (f : A → M B) :
  store_untouched x → (∀ a, store_untouched (f a)) → store_untouched (x ≫= f).
Proof.
  intros Hx Hf w. unfold mbind, M_bind. specialize (Hx w).
  destruct (x w) as [[a|v] w1]; [|done]. cbn in Hx. by rewrite Hf.
Qed.

Lemma untouched_ret {A : Type} (a : A) : store_untouched (mret a : M A).
Proof. done. Qed.

Lemma untouched_deref (p : ptr) : store_untouched (deref p).
Proof. intros w. unfold deref. by destruct (carriers w !! p). Qed.

Lemma untouched_verdict : store_untouched verdict.
Proof. intros [cs lg n [|r s]]; reflexivity. Qed.

Lemma untouched_on_handle {A : Type} (db : option DB) (f : DB → M A) :
  (∀ h, store_untouched (f h)) → store_untouched (gorm.on_handle db f).
Proof. intros Hf. destruct db as [h|]; [apply Hf | intros w; reflexivity]. Qed.

Lemma untouched_Begin (db : option DB) : store_untouched (gorm.Begin db).
Proof.
  apply untouched_on_handle. intros h.
  apply untouched_bind; [apply untouched_verdict|]. by intros [e|].
Qed.

Lemma untouched_Commit (db : option DB) : store_untouched (gorm.Commit db).
Proof.
  apply untouched_on_handle. intros h.
  by apply untouched_bind; [apply untouched_verdict|].
Qed.

Lemma untouched_SavePoint (db : option DB) (name : string) :
  store_untouched (gorm.SavePoint db name).
Proof.
  apply untouched_on_handle. intros h.
  by apply untouched_bind; [apply untouched_verdict|].
Qed.

Lemma untouched_Rollback (db : option DB) : store_untouched (gorm.Rollback db).
Proof. by apply untouched_on_handle. Qed.

Lemma untouched_RollbackTo (db : option DB) (name : string) :
  store_untouched (gorm.RollbackTo db name).
Proof. by apply untouched_on_handle. Qed.

Lemma untouched_carrier_Rollback (p : ptr) : store_untouched (Rollback p).
Proof.
  apply untouched_bind; [apply untouched_deref|]. intros c.
  destruct (InTransaction c && IsRoot c); [apply untouched_Rollback|done].
Qed.

Lemma untouched_carrier_Commit (p : ptr) : store_untouched (Commit p).
Proof.
  apply untouched_bind; [apply untouched_deref|]. intros c.
  destruct (InTransaction c); cbn; [|done].
  destruct (IsRoot c); [apply untouched_Commit|done].
Qed.

Lemma untouched_kept {A : Type} (x : M A) (w : World) :
  store_untouched x → carriers_kept w (x w).2.
Proof. intros H. by apply carriers_kept_same. Qed.

Lemma kept_Session (p : ptr) (w : World) : carriers_kept w (Session p w).2.
Proof.
  unfold Session. apply kept_bind; [apply untouched_kept, untouched_deref|].
  intros c w1 _. apply kept_bind.
  - apply untouched_kept. by apply untouched_on_handle.
  - intros t w2 _. by apply (carriers_kept_app _ _ [mkTransactionContext (ctx c) t (Some p)]).
Qed.

Lemma deref_inv (p : ptr) (w w1 : World) (c : transactionContext) :
  deref p w = (Ret c, w1) → w1 = w ∧ carriers w !! p = Some c.
Proof.
  unfold deref. destruct (carriers w !! p) as [c'|]; [|done].
  intros H. injection H as -> ->. done.
Qed.

Section Kept.

Variable m : transactionManager.
Variable bizFn : bizFunc.
Hypothesis bizFn_keeps : ∀ cx h, keeps_carriers (call bizFn cx h).

Lemma kept_run_owned (p : ptr) (w : World) :
  carriers_kept w (run_owned p bizFn w).2.
Proof.
  unfold run_owned. apply kept_defer.
  - apply kept_bind; [apply untouched_kept, untouched_deref|]. intros c w1 _.
    apply kept_bind.
    + destruct (TxError c); [apply carriers_kept_refl | apply bizFn_keeps].
    + intros [e|] w2 _; [apply carriers_kept_refl|].
      apply untouched_kept, untouched_carrier_Commit.
  - intros o w1 _. destruct (panicked_or_err o); [|apply carriers_kept_refl].
    apply untouched_kept, untouched_carrier_Rollback.
Qed.

Lemma kept_join (p : ptr) (h : option DB) (w : World) :
  carriers_kept w ((s ← Session p; call bizFn (TxCtx s) h) w).2.
Proof.
  apply kept_bind; [apply kept_Session|]. intros s w1 _. apply bizFn_keeps.
Qed.

Lemma kept_strip (cx : Context) :
  store_untouched (match cx with
                   | TxCtx p => txCtx ← deref p; mret (Ctx txCtx)
                   | PlainCtx _ => mret cx
                   end).
Proof.
  destruct cx as [k|p]; [done|].
  by apply untouched_bind; [apply untouched_deref|].
Qed.

Lemma kept_open_new (cx c0 : Context) (w : World) :
  carriers_kept w
    ((db ← gorm.Begin (getPureDB m cx);
      p ← alloc (mkTransactionContext c0 db None);
      run_owned p bizFn) w).2.
Proof.
  apply kept_bind; [apply untouched_kept, untouched_Begin|]. intros db w1 _.
  apply kept_bind; [|intros p w2 _; apply kept_run_owned].
  by apply (carriers_kept_app _ _ [mkTransactionContext c0 db None]).
Qed.

Lemma kept_withRequiredPropagation (cx : Context) (w : World) :
  carriers_kept w (withRequiredPropagation m cx bizFn w).2.
Proof.
  unfold withRequiredPropagation. destruct cx as [k|p]; [apply kept_open_new|].
  apply kept_bind; [apply untouched_kept, untouched_deref|].
  intros c w1 [-> Hp]%deref_inv.
  destruct (InTransaction c) eqn:Hlive; [apply kept_join|].
  apply kept_bind; [apply untouched_kept, untouched_Begin|]. intros db w1 Hb.
  pose proof (untouched_Begin (getPureDB m (TxCtx p)) w) as Hsame.
  rewrite Hb in Hsame. cbn in Hsame.
  apply kept_bind; [|intros u w2 _; apply kept_run_owned].
  apply (carriers_kept_set_tx p c); [by rewrite Hsame | done].
Qed.

Lemma kept_withNestedPropagation (cx : Context) (w : World) :
  carriers_kept w (withNestedPropagation m cx bizFn w).2.
Proof.
  unfold withNestedPropagation.
  destruct cx as [k|p]; [apply kept_withRequiredPropagation|].
  apply kept_bind; [apply untouched_kept, untouched_deref|]. intros c w1 _.
  destruct (InTransaction c); [|apply kept_withRequiredPropagation].
  apply kept_bind; [apply untouched_kept; by apply untouched_on_handle|].
  intros disabled w2 _. destruct (negb disabled); [|apply kept_join].
  apply kept_bind; [apply untouched_kept, untouched_SavePoint|].
  intros err w3 _. apply kept_defer.
  - destruct err; [apply carriers_kept_refl | apply kept_join].
  - intros o w4 _. destruct (panicked_or_err o); [|apply carriers_kept_refl].
    apply untouched_kept, untouched_RollbackTo.
Qed.

Lemma kept_withRequiresNewPropagation (cx : Context) (w : World) :
  carriers_kept w (withRequiresNewPropagation m cx bizFn w).2.
Proof.
  unfold withRequiresNewPropagation.
  apply kept_bind; [apply untouched_kept, kept_strip|]. intros pureCtx w1 _.
  apply kept_open_new.
Qed.

Lemma kept_withSupportsPropagation (cx : Context) (w : World) :
  carriers_kept w (withSupportsPropagation m cx bizFn w).2.
Proof.
  unfold withSupportsPropagation. destruct cx as [k|p]; [apply bizFn_keeps|].
  apply kept_bind; [apply untouched_kept, untouched_deref|]. intros c w1 _.
  destruct (InTransaction c); [apply kept_join | apply bizFn_keeps].
Qed.

Lemma kept_withMandatoryPropagation (cx : Context) (w : World) :
  carriers_kept w (withMandatoryPropagation m cx bizFn w).2.
Proof.
  unfold withMandatoryPropagation.
  destruct cx as [k|p]; [apply carriers_kept_refl|].
  apply kept_bind; [apply untouched_kept, untouched_deref|]. intros c w1 _.
  destruct (InTransaction c); [apply kept_join | apply carriers_kept_refl].
Qed.

Lemma kept_withNotSupportedPropagation (cx : Context) (w : World) :
  carriers_kept w (withNotSupportedPropagation m cx bizFn w).2.
Proof.
  unfold withNotSupportedPropagation.
  apply kept_bind; [apply untouched_kept, kept_strip|]. intros pureCtx w1 _.
  apply bizFn_keeps.
Qed.

Lemma kept_withNeverPropagation (cx : Context) (w : World) :
  carriers_kept w (withNeverPropagation m cx bizFn w).2.
Proof.
  unfold withNeverPropagation. destruct cx as [k|p]; [apply bizFn_keeps|].
  apply kept_bind; [apply untouched_kept, untouched_deref|]. intros c w1 _.
  destruct (InTransaction c); [apply carriers_kept_refl | apply bizFn_keeps].
Qed.

Lemma kept_Transaction (cx : Context) (modes : list TransactionPropagation) :
  keeps_carriers (Transaction m cx bizFn modes).
Proof.
  intros w. unfold Transaction.
  destruct (_ =? PropagationRequired); [apply kept_withRequiredPropagation|].
  destruct (_ =? PropagationSupports); [apply kept_withSupportsPropagation|].
  destruct (_ =? PropagationMandatory); [apply kept_withMandatoryPropagation|].
  destruct (_ =? PropagationRequiresNew); [apply kept_withRequiresNewPropagation|].
  destruct (_ =? PropagationNotSupported); [apply kept_withNotSupportedPropagation|].
  destruct (_ =? PropagationNested); [apply kept_withNestedPropagation|].
  destruct (_ =? PropagationNever); [apply kept_withNeverPropagation|].
  apply carriers_kept_refl.
Qed.

End Kept.

(** A [Required] frame on a live ambient transaction runs [bizFn] on a
    session derived from the ambient carrier, with the ambient handle. *)
Lemma required_joins (m : transactionManager) (cx : Context) (bizFn : bizFunc)
    (p : ptr) (c : transactionContext) (w : World) :
  live_ambient cx w p c →
  withRequiredPropagation m cx bizFn w =
  call bizFn (TxCtx (length (carriers w))) (tx c) (stored (session_of p c) w).
Proof.
  intros (-> & Hp & Hlive). unfold withRequiredPropagation.
  rewrite (bind_run _ _ w w c) by by apply deref_Some.
  rewrite Hlive.
  destruct (in_transaction_tx c Hlive) as (h & Htx & _).
  by rewrite (bind_run _ _ _ _ _ (Session_run p c h w Hp Htx)).
Qed.


(** With no live ambient transaction, a [Nested] frame is the [Required]
    frame. *)
Lemma nested_falls_back (m : transactionManager) (cx : Context) (bizFn : bizFunc)
    (w : World) :
  no_live_ambient cx w →
  withNestedPropagation m cx bizFn w = withRequiredPropagation m cx bizFn w.
Proof.
  intros H. destruct cx as [k|p]; [done|].
  destruct H as (c & Hp & Hdead).
  unfold withNestedPropagation at 1.
  rewrite (bind_run _ _ w w c) by by apply deref_Some. by rewrite Hdead.
Qed.

(** A [Required] frame on a carrier that is not in a transaction leaves in
    its [tx] field the handle its [Begin] returned. *)
Lemma required_rebinds (m : transactionManager) (bizFn : bizFunc)
    (p : ptr) (c : transactionContext) (db : DB) (w : World) :
  (∀ cx' h, keeps_carriers (call bizFn cx' h)) →
  carriers w !! p = Some c → InTransaction c = false →
  getPureDB m (TxCtx p) = Some db →
  ∃ c', carriers (withRequiredPropagation m (TxCtx p) bizFn w).2 !! p = Some c'
        ∧ ctx c' = ctx c ∧ parent c' = parent c
        ∧ tx c' = Some match head_verdict w with
                       | None => begun db w
                       | Some e => refused db e
                       end.
Proof.
  intros Hbiz Hp Hdead Hdb.
  assert (no_live_ambient (TxCtx p) w) as Hnone by by exists c.
  destruct (head_verdict w) as [e|] eqn:Hv.
  - rewrite (required_refused m (TxCtx p) bizFn db e w) by done.
    set (t := refused db e).
    destruct (opened_lookup (TxCtx p) t w Hnone) as (c1 & Hc1 & Htx & _ & Hsame).
    destruct (Hsame p c eq_refl Hp) as [Hctx Hpar].
    rewrite (run_owned_refused _ c1 t e bizFn) by done.
    exists c1. split; [|done].
    by destruct (gorm.is_committer (ConnPool t) && IsRoot c1).
  - rewrite (required_opens m (TxCtx p) bizFn db w) by done.
    set (t := begun db w).
    destruct (opened_lookup (TxCtx p) t w Hnone) as (c1 & Hc1 & Htx & _ & Hsame).
    destruct (Hsame p c eq_refl Hp) as [Hctx Hpar].
    destruct (kept_run_owned bizFn Hbiz (opened_carrier (TxCtx p) w)
                (after_begin t (opened_store (TxCtx p) t w) w) p c1 Hc1)
      as (c' & Hc' & Hctx' & Hpar' & Htx').
    exists c'. split; [done|]. split; [congruence|]. split; [congruence|].
    rewrite Htx'; [done|]. unfold InTransaction. by rewrite Htx.
Qed.



(** *** Call chains *)

(** An inner [Required] frame joins the transaction of the outer one; its
    error, handed on by the outer [bizFn], rolls the one transaction back. *)
Example required_chain_rolls_back :
  let t := Sample.handle 0 in
  let out := Transaction Sample.tm (PlainCtx 0)
               (Sample.biz_outer (Sample.biz_err "u2") PropagationRequired) []
               Sample.w_empty in
  out.1 = Ret (Some Sample.mockErr)
  ∧ log out.2 = [EvBegin t; EvBiz (TxCtx 0) (Some t) "u1";
                 EvBiz (TxCtx 1) (Some t) "u2"; EvRollback t].
Proof. cbv zeta. split; reflexivity. Qed.

(** An inner [RequiresNew] frame commits its own transaction before the
    outer one commits. *)
Example requires_new_chain_commits_apart :
  let t := Sample.handle 0 in
  let t' := mkDB (PoolTx 1) None (PlainCtx 0) false in
  let out := Transaction Sample.tm (PlainCtx 0)
               (Sample.biz_outer (Sample.biz_ok "u2") PropagationRequiresNew) []
               Sample.w_empty in
  out.1 = Ret None
  ∧ log out.2 = [EvBegin t; EvBiz (TxCtx 0) (Some t) "u1";
                 EvBegin t'; EvBiz (TxCtx 1) (Some t') "u2"; EvCommit t' None;
                 EvCommit t None].
Proof. cbv zeta. split; reflexivity. Qed.

(** An inner [Never] frame refuses the live transaction, and the outer
    frame rolls back. *)
Example never_chain_refused :
  let t := Sample.handle 0 in
  let out := Transaction Sample.tm (PlainCtx 0)
               (Sample.biz_outer (Sample.biz_ok "u2") PropagationNever) []
               Sample.w_empty in
  out.1 = Ret (Some ErrNeverPropInTransaction)
  ∧ log out.2 = [EvBegin t; EvBiz (TxCtx 0) (Some t) "u1"; EvRollback t].
Proof. cbv zeta. split; reflexivity. Qed.

(** * Further properties *)

(** ** The connection cache *)

Section CacheFacts.
Import Cache.

Lemma Get_entry (d : dbCache) (source key : string) :
  Get d source key = default None (entry d source key).
Proof.
  unfold Get, entry. destruct (dbConns d !! source) as [conns|]; [|done].
  by destruct (conns !! key).
Qed.

Lemma entry_Set (d : dbCache) (source key source' key' : string) (db : option DB) :
  entry (Set_ d source key db) source' key' =
  if decide (source' = source ∧ key' = key) then Some db else entry d source' key'.
Proof.
  unfold Set_, entry.
  destruct (dbConns d !! source) as [conns|] eqn:Hs; cbn.
  - destruct (decide (source' = source)) as [->|Hne].
    + rewrite lookup_insert_eq, Hs.
      destruct (decide (key' = key)) as [->|Hk].
      * rewrite lookup_insert_eq. by rewrite decide_True.
      * rewrite lookup_insert_ne by done. rewrite decide_False; [done|].
        by intros [_ ?].
    + rewrite lookup_insert_ne by done. rewrite decide_False; [done|].
      by intros [? _].
  - destruct (decide (source' = source)) as [->|Hne].
    + rewrite lookup_insert_eq, Hs.
      destruct (decide (key' = key)) as [->|Hk].
      * rewrite lookup_insert_eq. by rewrite decide_True.
      * rewrite lookup_insert_ne by done. rewrite decide_False; [done|].
        by intros [_ ?].
    + rewrite !lookup_insert_ne by done. rewrite decide_False; [done|].
      by intros [? _].
Qed.

(** X1.  [Get] after [Set] returns the handle that was set, at the source
    and key it was set for, and what [Get] returned before at every other
    source or key. *)
Theorem Get_Set (d : dbCache) (source key source' key' : string) (db : option DB) :
  Get (Set_ d source key db) source' key' =
  if decide (source' = source ∧ key' = key) then db else Get d source' key'.
Proof.
  rewrite !Get_entry, entry_Set. by case_decide.
Qed.

Lemma GetOrCreate_found {S : Type} (d : dbCache) (source key : string)
    (createFunc : S → Outcome (option DB * option error) * S) (s : S)
    (conn : option DB) :
  entry d source key = Some conn →
  GetOrCreate d source key createFunc s = (Ret (conn, None), (d, s)).
Proof.
  unfold entry, GetOrCreate. destruct d as [m]. cbn.
  destruct (m !! source) as [conns|]; [|done]. by intros ->.
Qed.

(** X2.  When an entry is stored for the source and key, [GetOrCreate]
    returns it with a nil error and leaves the cache as it is; [createFunc]
    is not run: its state is as before, whatever it would do. *)
Theorem GetOrCreate_hit {S : Type} (d : dbCache) (source key : string)
    (createFunc : S → Outcome (option DB * option error) * S) (s : S)
    (conn : option DB) :
  entry d source key = Some conn →
  GetOrCreate d source key createFunc s = (Ret (conn, None), (d, s)).
Proof. exact (GetOrCreate_found d source key createFunc s conn). Qed.

Lemma entry_created (m : gmap string (gmap string (option DB)))
    (conns : gmap string (option DB)) (source key source' key' : string)
    (conn : option DB) :
  entry (mkDbCache (<[source := <[key := conn]> conns]> m)) source' key' =
  if decide (source' = source)
  then if decide (key' = key) then Some conn else conns !! key'
  else entry (mkDbCache m) source' key'.
Proof.
  unfold entry. cbn. destruct (decide (source' = source)) as [->|Hne].
  - rewrite lookup_insert_eq. destruct (decide (key' = key)) as [->|Hk].
    + by rewrite lookup_insert_eq.
    + by rewrite lookup_insert_ne.
  - by rewrite lookup_insert_ne.
Qed.

Lemma entry_source_made (m : gmap string (gmap string (option DB)))
    (source source' key' : string) :
  m !! source = None →
  entry (mkDbCache (<[source := ∅]> m)) source' key' = entry (mkDbCache m) source' key'.
Proof.
  intros Hs. unfold entry. cbn. destruct (decide (source' = source)) as [->|Hne].
  - by rewrite lookup_insert_eq, Hs.
  - by rewrite lookup_insert_ne.
Qed.

Lemma GetOrCreate_absent {S : Type} (d : dbCache) (source key : string)
    (createFunc : S → Outcome (option DB * option error) * S) (s : S) :
  entry d source key = None →
  (GetOrCreate d source key createFunc s).1 = (createFunc s).1
  ∧ (GetOrCreate d source key createFunc s).2.2 = (createFunc s).2.
Proof.
  unfold entry, GetOrCreate. destruct d as [m]. cbn.
  destruct (m !! source) as [conns|].
  - intros ->. by destruct (createFunc s) as [[[conn [e|]]|v] s1].
  - intros _. rewrite lookup_empty.
    by destruct (createFunc s) as [[[conn [e|]]|v] s1].
Qed.

(** X3.  On a miss, [GetOrCreate] returns what [createFunc] returns, be it
    a handle, an error or a panic, and leaves [createFunc]'s state as
    [createFunc] left it. *)
Theorem GetOrCreate_miss {S : Type} (d : dbCache) (source key : string)
    (createFunc : S → Outcome (option DB * option error) * S) (s : S) :
  entry d source key = None →
  (GetOrCreate d source key createFunc s).1 = (createFunc s).1
  ∧ (GetOrCreate d source key createFunc s).2.2 = (createFunc s).2.
Proof. exact (GetOrCreate_absent d source key createFunc s). Qed.

Lemma GetOrCreate_elsewhere {S : Type} (d : dbCache) (source key source' key' : string)
    (createFunc : S → Outcome (option DB * option error) * S) (s : S) :
  ¬ (source' = source ∧ key' = key) →
  entry (GetOrCreate d source key createFunc s).2.1 source' key'
    = entry d source' key'.
Proof.
  intros Hne. unfold GetOrCreate. destruct d as [m]. cbn.
  destruct (m !! source) as [conns|] eqn:Hs.
  - destruct (conns !! key) as [conn|] eqn:Hk; [done|].
    destruct (createFunc s) as [[[conn [e|]]|v] s1]; cbn; try done.
    rewrite entry_created. destruct (decide (source' = source)) as [->|]; [|done].
    destruct (decide (key' = key)) as [->|]; [by destruct Hne|].
    unfold entry. cbn. by rewrite Hs.
  - rewrite lookup_empty.
    destruct (createFunc s) as [[[conn [e|]]|v] s1]; cbn;
      try by apply entry_source_made.
    rewrite entry_created. destruct (decide (source' = source)) as [->|].
    + destruct (decide (key' = key)) as [->|]; [by destruct Hne|].
      unfold entry. cbn. by rewrite Hs, lookup_empty.
    + by apply entry_source_made.
Qed.

(** X4.  Whatever [createFunc] does, [GetOrCreate] leaves the entry of
    every other source or key as it was. *)
Theorem GetOrCreate_frame {S : Type} (d : dbCache) (source key source' key' : string)
    (createFunc : S → Outcome (option DB * option error) * S) (s : S) :
  ¬ (source' = source ∧ key' = key) →
  entry (GetOrCreate d source key createFunc s).2.1 source' key'
    = entry d source' key'.
Proof. exact (GetOrCreate_elsewhere d source key source' key' createFunc s). Qed.

Lemma GetOrCreate_frame_witness :
  entry (GetOrCreate (mkDbCache ∅) "simple_db" "a#1#b"
           (λ s : nat, (Ret (Some Sample.pool, None), S s)) 0%nat).2.1
        "config_db" "a#1#b"
  = entry (mkDbCache ∅) "config_db" "a#1#b".
Proof.
  apply (GetOrCreate_frame (mkDbCache ∅) "simple_db" "a#1#b" "config_db" "a#1#b").
  intros [H _]. discriminate H.
Defined.

(** X5.  When no entry is stored and [createFunc] returns a handle with a
    nil error, [GetOrCreate] stores that handle: [Get] returns it, and
    every later [GetOrCreate] for the source and key returns it without
    running its [createFunc] and without changing the cache. *)
Theorem GetOrCreate_creates_once {S : Type} (d : dbCache) (source key : string)
    (createFunc : S → Outcome (option DB * option error) * S) (s s1 : S)
    (conn : option DB) :
  entry d source key = None →
  createFunc s = (Ret (conn, None), s1) →
  ∃ d', GetOrCreate d source key createFunc s = (Ret (conn, None), (d', s1))
        ∧ Get d' source key = conn
        ∧ ∀ (again : S → Outcome (option DB * option error) * S) (s2 : S),
            GetOrCreate d' source key again s2 = (Ret (conn, None), (d', s2)).
Proof.
  intros Hmiss Hf.
  assert (∃ d', GetOrCreate d source key createFunc s = (Ret (conn, None), (d', s1))
                ∧ entry d' source key = Some conn) as (d' & Hrun & Hentry).
  { unfold entry in Hmiss. unfold GetOrCreate. destruct d as [m]. cbn in *.
    destruct (m !! source) as [conns|].
    - rewrite Hmiss, Hf. eexists. split; [done|].
      rewrite entry_created. by rewrite !decide_True.
    - rewrite lookup_empty, Hf. eexists. split; [done|].
      rewrite entry_created. by rewrite !decide_True. }
  exists d'. split; [done|]. split.
  - by rewrite Get_entry, Hentry.
  - intros again s2. by apply GetOrCreate_found.
Qed.

Lemma GetOrCreate_creates_once_witness :
  ∃ d', GetOrCreate (mkDbCache ∅) "simple_db" "a#1#b"
          (λ s : nat, (Ret (Some Sample.pool, None), S s)) 0%nat
        = (Ret (Some Sample.pool, None), (d', 1%nat))
        ∧ Get d' "simple_db" "a#1#b" = Some Sample.pool
        ∧ ∀ (again : nat → Outcome (option DB * option error) * nat) (s2 : nat),
            GetOrCreate d' "simple_db" "a#1#b" again s2
            = (Ret (Some Sample.pool, None), (d', s2)).
Proof.
  apply (GetOrCreate_creates_once (mkDbCache ∅) "simple_db" "a#1#b"
           (λ s : nat, (Ret (Some Sample.pool, None), S s)) 0%nat 1%nat);
    reflexivity.
Defined.

Lemma GetOrCreate_failed {S : Type} (d : dbCache)
    (source key : string)
    (createFunc : S → Outcome (option DB * option error) * S) (s : S) :
  entry d source key = None →
  (∀ conn, (createFunc s).1 ≠ Ret (conn, None)) →
  let d' := (GetOrCreate d source key createFunc s).2.1 in
  (∀ source' key', entry d' source' key' = entry d source' key')
  ∧ ∀ (again : S → Outcome (option DB * option error) * S) (s2 : S),
      (GetOrCreate d' source key again s2).1 = (again s2).1.
Proof.
  intros Hmiss Hfail d'.
  assert (∀ source' key', entry d' source' key' = entry d source' key') as Hsame.
  { intros source' key'.
    destruct (decide (source' = source ∧ key' = key)) as [[-> ->]|Hne];
      [|by apply GetOrCreate_elsewhere].
    subst d'. unfold entry in Hmiss. unfold GetOrCreate. destruct d as [m].
    cbn in *. destruct (m !! source) as [conns|] eqn:Hs.
    - rewrite Hmiss.
      destruct (createFunc s) as [[[conn [e|]]|v] s1]; cbn;
        [| by destruct (Hfail conn) |]; unfold entry; cbn; by rewrite Hs.
    - rewrite lookup_empty.
      destruct (createFunc s) as [[[conn [e|]]|v] s1]; cbn;
        [| by destruct (Hfail conn) |]; unfold entry; cbn;
        by rewrite lookup_insert_eq, lookup_empty, Hs. }
  split; [done|]. intros again s2.
  apply GetOrCreate_absent. by rewrite Hsame.
Qed.

(** X6.  When no entry is stored and [createFunc] returns an error or
    panics, [GetOrCreate] stores nothing: every entry of the cache is as it
    was, so the next [GetOrCreate] for the source and key runs its
    [createFunc] again. *)
Theorem GetOrCreate_failure_stores_nothing {S : Type} (d : dbCache)
    (source key : string)
    (createFunc : S → Outcome (option DB * option error) * S) (s : S) :
  entry d source key = None →
  (∀ conn, (createFunc s).1 ≠ Ret (conn, None)) →
  let d' := (GetOrCreate d source key createFunc s).2.1 in
  (∀ source' key', entry d' source' key' = entry d source' key')
  ∧ ∀ (again : S → Outcome (option DB * option error) * S) (s2 : S),
      (GetOrCreate d' source key again s2).1 = (again s2).1.
Proof. exact (GetOrCreate_failed d source key createFunc s). Qed.

Lemma GetOrCreate_failure_stores_nothing_witness :
  let d' := (GetOrCreate (mkDbCache ∅) "simple_db" "a#1#b"
               (λ s : nat, (Panicked "database must be set", s)) 0%nat).2.1 in
  (∀ source' key', entry d' source' key' = entry (mkDbCache ∅) source' key')
  ∧ ∀ (again : nat → Outcome (option DB * option error) * nat) (s2 : nat),
      (GetOrCreate d' "simple_db" "a#1#b" again s2).1 = (again s2).1.
Proof.
  apply (GetOrCreate_failure_stores_nothing (mkDbCache ∅) "simple_db" "a#1#b"
           (λ s : nat, (Panicked "database must be set", s)) 0%nat).
  - reflexivity.
  - intros conn H. discriminate H.
Defined.

End CacheFacts.

Lemma GetOrCreate_hit_witness :
  Cache.GetOrCreate (Cache.Set_ ConnSample.empty_cache "simple_db" "a#1#b" (Some Sample.pool))
    "simple_db" "a#1#b" (λ s : nat, (Panicked "never run", S s)) 0%nat
  = (Ret (Some Sample.pool, None),
     (Cache.Set_ ConnSample.empty_cache "simple_db" "a#1#b" (Some Sample.pool), 0%nat)).
Proof.
  apply (GetOrCreate_hit _ "simple_db" "a#1#b"). reflexivity.
Defined.

Lemma GetOrCreate_miss_witness :
  let run := Cache.GetOrCreate ConnSample.empty_cache "simple_db" "a#1#b"
               (λ s : nat, (Ret (None, Some (ErrOther "dial error")), S s)) 0%nat in
  run.1 = Ret (None, Some (ErrOther "dial error")) ∧ run.2.2 = 1%nat.
Proof.
  apply (GetOrCreate_miss ConnSample.empty_cache "simple_db" "a#1#b"
           (λ s : nat, (Ret (None, Some (ErrOther "dial error")), S s)) 0%nat).
  reflexivity.
Defined.

(** ** Cache keys *)

Section KeyFacts.
Import Conn.

Lemma hash_free_uint (d : Decimal.uint) :
  hash_free (NilEmpty.string_of_uint d) = true.
Proof. induction d; cbn; done. Qed.

Lemma hash_free_Itoa (i : Z) : hash_free (Itoa i) = true.
Proof.
  unfold Itoa, NilZero.string_of_int, NilZero.string_of_uint.
  destruct (Z.to_int i) as [d|d]; destruct d; cbn; try done;
    apply hash_free_uint.
Qed.

Lemma Itoa_inj (i j : Z) : Itoa i = Itoa j → i = j.
Proof.
  intros H. apply DecimalZ.to_int_inj.
  assert (∀ z, Z.to_int z ≠ Decimal.Pos Decimal.Nil
               ∧ Z.to_int z ≠ Decimal.Neg Decimal.Nil) as Hnonnil.
  { intros [|q|q]; cbn; split; try discriminate;
      intros Heq; injection Heq as Heq;
      by apply DecimalPos.Unsigned.to_uint_nonnil in Heq. }
  destruct (Hnonnil i) as [Hi1 Hi2], (Hnonnil j) as [Hj1 Hj2].
  apply (inj Some).
  rewrite <- (NilZero.isi (Z.to_int i)), <- (NilZero.isi (Z.to_int j)) by done.
  unfold Itoa in H. by rewrite H.
Qed.

(** A string is cut at its first ['#'] in one way only. *)
Lemma hash_split (a a' b b' : string) :
  hash_free a = true → hash_free a' = true →
  a +:+ "#" +:+ b = a' +:+ "#" +:+ b' → a = a' ∧ b = b'.
Proof.
  revert a'. induction a as [|c a IH]; intros [|c' a'] Ha Ha' H;
    unfold String.app in H; simpl in H; cbn in Ha, Ha'.
  - by injection H as ->.
  - injection H as <- _. by rewrite Ascii.eqb_refl in Ha'.
  - injection H as -> _. by rewrite Ascii.eqb_refl in Ha.
  - injection H as -> H.
    apply andb_prop in Ha as [_ Ha]. apply andb_prop in Ha' as [_ Ha'].
    destruct (IH a' Ha Ha' H) as [-> ->]. done.
Qed.

Lemma simple_key_inj (c c' : simpleDBCreator) :
  hash_free (host c) = true → hash_free (host c') = true →
  simpleDBCreator_CacheKey c = simpleDBCreator_CacheKey c' →
  host c = host c' ∧ port c = port c' ∧ database c = database c'.
Proof.
  intros Hh Hh' H. unfold simpleDBCreator_CacheKey in H.
  destruct (hash_split _ _ _ _ Hh Hh' H) as [Hhost H1].
  destruct (hash_split _ _ _ _ (hash_free_Itoa _) (hash_free_Itoa _) H1)
    as [Hport Hdb].
  split; [done|]. split; [by apply Itoa_inj | done].
Qed.

(** X7.  Two simple creators whose hosts hold no ['#'] have the same cache
    key only when they have the same host, port and database. *)
Theorem simpleDBCreator_CacheKey_inj (c c' : simpleDBCreator) :
  hash_free (host c) = true → hash_free (host c') = true →
  simpleDBCreator_CacheKey c = simpleDBCreator_CacheKey c' →
  host c = host c' ∧ port c = port c' ∧ database c = database c'.
Proof. exact (simple_key_inj c c'). Qed.

Lemma simpleDBCreator_CacheKey_inj_witness :
  "localhost" = "localhost" ∧ 3306 = 3306 ∧ "pt" = "pt".
Proof.
  apply (simpleDBCreator_CacheKey_inj
           (mkSimpleDBCreator "localhost" 3306 "pt" "root" "123456")
           (mkSimpleDBCreator "localhost" 3306 "pt" "guest" "")); reflexivity.
Defined.

(** With a ['#'] in the host, creators for different endpoints share a key. *)
Example simpleDBCreator_CacheKey_collision :
  simpleDBCreator_CacheKey (mkSimpleDBCreator "db#1" 2 "pt" "root" "")
  = simpleDBCreator_CacheKey (mkSimpleDBCreator "db" 1 "2#pt" "root" "").
Proof. reflexivity. Qed.

End KeyFacts.

(** ** Creators and cached factories *)

Section ConnFacts.
Import Conn.
Context {S : Type} (drv : sqlDriver S).

Lemma simple_create_run (c : simpleDBCreator) (s : S) :
  simpleDBCreator_CreateDB drv c s =
  if String.eqb (database c) "" then (Panicked "database must be set", s)
  else
    let patched :=
      Config.mkConnConfig (host c) (if port c =? 0 then 5432 else port c)
        (user c) (password c) (database c) 5 20 3600 false "mysql" in
    match gormOpen drv (connStr patched) s with
    | (Panicked v, s1) => (Panicked v, s1)
    | (Ret (db, Some err), s1) => (Ret (None, Some err), s1)
    | (Ret (db, None), s1) =>
        match configurePool drv db 5 20 3600 s1 with
        | (Panicked v, s2) => (Panicked v, s2)
        | (Ret _, s2) => (Ret (db, None), s2)
        end
    end.
Proof.
  unfold simpleDBCreator_CreateDB, createDB.
  pose proof (PatchDefaultConfig_fields
    (Config.mkConnConfig (host c) (port c) (user c) (password c) (database c)
       0 0 0 false "")) as Hf.
  pose proof (PatchDefaultConfig_outcome
    (Config.mkConnConfig (host c) (port c) (user c) (password c) (database c)
       0 0 0 false "")) as Ho.
  destruct (Config.PatchDefaultConfig _) as [o c']. cbn in Hf, Ho. subst o c'.
  destruct (String.eqb (database c) ""); [done|]. cbn.
  destruct (gormOpen drv _ s) as [[[db [e|]]|v] s1]; try done.
  by destruct (configurePool drv db 5 20 3600 s1) as [[u|v] s2].
Qed.

(** X8.  What a simple creator asks of the driver: with an empty database
    name it panics before any call to the driver; otherwise it opens the
    connection string of its host, port (5432 when the port is 0), user,
    password and database, returns the driver's error without a handle
    when the driver refuses, and else sets the pool to 5 idle connections,
    20 open connections and a lifetime of 3600 seconds, whatever the
    caller passed. *)
Theorem simpleDBCreator_CreateDB_run (c : simpleDBCreator) (s : S) :
  simpleDBCreator_CreateDB drv c s =
  if String.eqb (database c) "" then (Panicked "database must be set", s)
  else
    let patched :=
      Config.mkConnConfig (host c) (if port c =? 0 then 5432 else port c)
        (user c) (password c) (database c) 5 20 3600 false "mysql" in
    match gormOpen drv (connStr patched) s with
    | (Panicked v, s1) => (Panicked v, s1)
    | (Ret (db, Some err), s1) => (Ret (None, Some err), s1)
    | (Ret (db, None), s1) =>
        match configurePool drv db 5 20 3600 s1 with
        | (Panicked v, s2) => (Panicked v, s2)
        | (Ret _, s2) => (Ret (db, None), s2)
        end
    end.
Proof. exact (simple_create_run c s). Qed.

(** X9.  A simple creator for port 0 asks of the driver exactly what the
    creator for port 5432 asks, yet, with a host that holds no ['#'], the
    two never have the same cache key. *)
Theorem default_port_cached_apart (h d u pw : string) (s : S) :
  hash_free h = true →
  simpleDBCreator_CreateDB drv (mkSimpleDBCreator h 0 d u pw) s
    = simpleDBCreator_CreateDB drv (mkSimpleDBCreator h 5432 d u pw) s
  ∧ simpleDBCreator_CacheKey (mkSimpleDBCreator h 0 d u pw)
    ≠ simpleDBCreator_CacheKey (mkSimpleDBCreator h 5432 d u pw).
Proof.
  intros Hh. split.
  - by rewrite !simple_create_run.
  - intros H. apply simple_key_inj in H as (_ & Hport & _); done.
Qed.

(** A handle that [GetOrCreate] returns with a nil error is the stored one. *)
Lemma GetOrCreate_returned_is_stored (d d' : Cache.dbCache) (source key : string)
    (createFunc : S → Outcome (option DB * option error) * S) (s s' : S)
    (conn : option DB) :
  Cache.GetOrCreate d source key createFunc s = (Ret (conn, None), (d', s')) →
  Cache.entry d' source key = Some conn.
Proof.
  unfold Cache.GetOrCreate. destruct d as [m]. cbn.
  destruct (m !! source) as [conns|] eqn:Hs.
  - destruct (conns !! key) as [c|] eqn:Hk.
    + intros H. injection H as -> <- _. unfold Cache.entry. cbn. by rewrite Hs.
    + destruct (createFunc s) as [[[c [e|]]|v] s1]; intros H; try discriminate H.
      injection H as -> <- _. rewrite entry_created. by rewrite !decide_True.
  - rewrite lookup_empty.
    destruct (createFunc s) as [[[c [e|]]|v] s1]; intros H; try discriminate H.
    injection H as -> <- _. rewrite entry_created. by rewrite !decide_True.
Qed.

Lemma NewCachedDBFactory_stores (creator : CacheableDBCreator S)
    (cache cache' : Cache.dbCache) (s s' : S) (db : option DB) :
  NewCachedDBFactory creator cache s = (Ret (Some db, None), (cache', s')) →
  Cache.entry cache' (CacheSource creator) (CacheKey creator) = Some db.
Proof.
  unfold NewCachedDBFactory. intros H.
  destruct (Cache.GetOrCreate _ _ _ _ s) as [[[conn [e|]]|v] st] eqn:Hrun;
    try discriminate H.
  injection H as -> ->. by apply (GetOrCreate_returned_is_stored _ _ _ _ _ _ _ _ Hrun).
Qed.

Lemma NewSimpleDBFactory_again
    (h : string) (p : Z) (d u pw : string)
    (cache cache' : Cache.dbCache) (s s' : S) (db : option DB) :
  NewSimpleDBFactory drv h p d u pw cache s = (Ret (Some db, None), (cache', s')) →
  ∀ (u' pw' : string) (s2 : S),
    NewSimpleDBFactory drv h p d u' pw' cache' s2 = (Ret (Some db, None), (cache', s2)).
Proof.
  intros H u' pw' s2. apply NewCachedDBFactory_stores in H.
  unfold NewSimpleDBFactory, NewCachedDBFactory.
  by rewrite (GetOrCreate_found _ _ _ _ _ db H).
Qed.

(** X10.  Once [NewSimpleDBFactory] has returned a factory for a host, port
    and database, every later call for the same three returns a factory on
    the same handle, whatever user and password it is given, without a
    call to the driver and without a change to the cache. *)
Theorem NewSimpleDBFactory_hit_ignores_credentials
    (h : string) (p : Z) (d u pw : string)
    (cache cache' : Cache.dbCache) (s s' : S) (db : option DB) :
  NewSimpleDBFactory drv h p d u pw cache s = (Ret (Some db, None), (cache', s')) →
  ∀ (u' pw' : string) (s2 : S),
    NewSimpleDBFactory drv h p d u' pw' cache' s2 = (Ret (Some db, None), (cache', s2)).
Proof. exact (NewSimpleDBFactory_again h p d u pw cache cache' s s' db). Qed.

(** X11.  [GetSimpleDB] hands out views of the cached handle: once it has
    returned a handle for a host, port and database, every later call for
    the same three, with any credentials and any context, returns the same
    pool bound to the context it is given, without a call to the driver. *)
Theorem GetSimpleDB_shares_handle
    (h : string) (p : Z) (d u pw : string) (cx : Context)
    (cache cache' : Cache.dbCache) (s s' : S) (v : option DB) :
  GetSimpleDB drv h p d u pw cx cache s = (Ret (v, None), (cache', s')) →
  ∃ t, v = Some (gorm.bound t cx)
       ∧ ∀ (u' pw' : string) (cx' : Context) (s2 : S),
           GetSimpleDB drv h p d u' pw' cx' cache' s2
           = (Ret (Some (gorm.bound t cx'), None), (cache', s2)).
Proof.
  unfold GetSimpleDB. intros H.
  destruct (NewSimpleDBFactory drv h p d u pw cache s)
    as [[[[[t|]|] [e|]]|w] st] eqn:Hnew; try discriminate H.
  injection H as <- ->. exists t. split; [done|]. intros u' pw' cx' s2.
  by rewrite (NewSimpleDBFactory_again _ _ _ _ _ _ _ _ _ _ Hnew).
Qed.

(** X12.  When the driver refuses to open the connection, [GetSimpleDB]
    returns the driver's error and no handle, and every entry of the cache
    is as it was. *)
Theorem GetSimpleDB_refused_stores_nothing
    (h : string) (p : Z) (d u pw : string) (cx : Context)
    (cache : Cache.dbCache) (s s1 : S) (db : option DB) (e : error) :
  d ≠ "" →
  Cache.entry cache "simple_db" (h +:+ "#" +:+ Itoa p +:+ "#" +:+ d) = None →
  gormOpen drv
    (connStr (Config.mkConnConfig h (if p =? 0 then 5432 else p) u pw d
                5 20 3600 false "mysql")) s = (Ret (db, Some e), s1) →
  let run := GetSimpleDB drv h p d u pw cx cache s in
  run.1 = Ret (None, Some e) ∧ run.2.2 = s1
  ∧ ∀ source key, Cache.entry run.2.1 source key = Cache.entry cache source key.
Proof.
  intros Hd Hmiss Hopen run.
  set (create := simpleDBCreator_CreateDB drv (mkSimpleDBCreator h p d u pw)).
  assert (create s = (Ret (None, Some e), s1)) as Hcreate.
  { unfold create. rewrite simple_create_run. cbn.
    destruct (String.eqb_spec d ""); [done|]. by rewrite Hopen. }
  set (key := simpleDBCreator_CacheKey (mkSimpleDBCreator h p d u pw)).
  destruct (GetOrCreate_absent cache simpleDBCreator_CacheSource key create s Hmiss)
    as [H1 H2].
  destruct (GetOrCreate_failed cache simpleDBCreator_CacheSource
              key create s Hmiss) as [Hsame _].
  { intros conn. by rewrite Hcreate. }
  rewrite Hcreate in H1, H2. cbn in H1, H2.
  subst run. unfold GetSimpleDB, NewSimpleDBFactory, NewCachedDBFactory.
  cbn [simple_creator CacheSource CacheKey CreateDB].
  fold create key. revert H1 H2 Hsame.
  destruct (Cache.GetOrCreate cache simpleDBCreator_CacheSource key create s)
    as [o [d' s']].
  cbn. by intros -> -> Hsame.
Qed.

End ConnFacts.

Lemma NewSimpleDBFactory_hit_ignores_credentials_witness :
  let first := Conn.NewSimpleDBFactory ConnSample.driver "localhost" 3306 "pt"
                 "root" "123456" ConnSample.empty_cache [] in
  Conn.NewSimpleDBFactory ConnSample.driver "localhost" 3306 "pt" "guest" ""
    first.2.1 first.2.2
  = (Ret (Some (Some Sample.pool), None), first.2).
Proof.
  cbv zeta.
  refine (NewSimpleDBFactory_hit_ignores_credentials ConnSample.driver
    "localhost" 3306 "pt" "root" "123456" ConnSample.empty_cache _ [] _ _ _
    "guest" "" _).
  vm_compute. reflexivity.
Defined.

Lemma default_port_cached_apart_witness :
  Conn.simpleDBCreator_CreateDB ConnSample.driver
    (Conn.mkSimpleDBCreator "localhost" 0 "pt" "root" "") []
  = Conn.simpleDBCreator_CreateDB ConnSample.driver
      (Conn.mkSimpleDBCreator "localhost" 5432 "pt" "root" "") []
  ∧ Conn.simpleDBCreator_CacheKey (Conn.mkSimpleDBCreator "localhost" 0 "pt" "root" "")
    ≠ Conn.simpleDBCreator_CacheKey (Conn.mkSimpleDBCreator "localhost" 5432 "pt" "root" "").
Proof.
  apply (default_port_cached_apart ConnSample.driver "localhost" "pt" "root" "" []).
  reflexivity.
Defined.

Lemma GetSimpleDB_shares_handle_witness :
  let first := Conn.GetSimpleDB ConnSample.driver "localhost" 3306 "pt" "root"
                 "123456" (PlainCtx 0) ConnSample.empty_cache [] in
  ∃ t, Some (gorm.bound Sample.pool (PlainCtx 0)) = Some (gorm.bound t (PlainCtx 0))
       ∧ ∀ (u' pw' : string) (cx' : Context) (s2 : list string),
           Conn.GetSimpleDB ConnSample.driver "localhost" 3306 "pt" u' pw' cx'
             first.2.1 s2
           = (Ret (Some (gorm.bound t cx'), None), (first.2.1, s2)).
Proof.
  cbv zeta.
  refine (GetSimpleDB_shares_handle ConnSample.driver "localhost" 3306 "pt"
    "root" "123456" (PlainCtx 0) ConnSample.empty_cache _ [] _ _ _).
  vm_compute. reflexivity.
Defined.

Lemma GetSimpleDB_refused_stores_nothing_witness :
  let run := Conn.GetSimpleDB ConnSample.refusing "localhost" 0 "pt" "root" ""
               (PlainCtx 0) ConnSample.empty_cache [] in
  run.1 = Ret (None, Some (ErrOther "dial error"))
  ∧ run.2.2 = ["open root:@tcp(localhost:5432)/pt?charset=utf8"]
  ∧ ∀ source key,
      Cache.entry run.2.1 source key = Cache.entry ConnSample.empty_cache source key.
Proof.
  refine (GetSimpleDB_refused_stores_nothing ConnSample.refusing "localhost" 0
    "pt" "root" "" (PlainCtx 0) ConnSample.empty_cache [] _ None _ _ _ _).
  - discriminate.
  - reflexivity.
  - reflexivity.
Defined.

(** ** The modes the frames of which own no transaction *)

Lemma Transaction_Supports (m : transactionManager) (cx : Context) (bizFn : bizFunc) :
  Transaction m cx bizFn [PropagationSupports] = withSupportsPropagation m cx bizFn.
Proof. reflexivity. Qed.

Lemma Transaction_Mandatory (m : transactionManager) (cx : Context) (bizFn : bizFunc) :
  Transaction m cx bizFn [PropagationMandatory] = withMandatoryPropagation m cx bizFn.
Proof. reflexivity. Qed.

Lemma Transaction_Never (m : transactionManager) (cx : Context) (bizFn : bizFunc) :
  Transaction m cx bizFn [PropagationNever] = withNeverPropagation m cx bizFn.
Proof. reflexivity. Qed.

(** X13.  On a live ambient transaction, a [Supports] frame and a
    [Mandatory] frame do what a [Required] frame does: each runs [bizFn] on
    a session derived from the ambient carrier, with the ambient handle,
    issues no call to the driver and hands on whatever [bizFn] returns or
    panics with. *)
Theorem joining_modes_agree
    (m : transactionManager) (cx : Context) (bizFn : bizFunc)
    (p : ptr) (c : transactionContext) (w : World) :
  live_ambient cx w p c →
  let joined := call bizFn (TxCtx (length (carriers w))) (tx c)
                  (stored (session_of p c) w) in
  Transaction m cx bizFn [PropagationRequired] w = joined
  ∧ Transaction m cx bizFn [PropagationSupports] w = joined
  ∧ Transaction m cx bizFn [PropagationMandatory] w = joined.
Proof.
  intros Hlive joined. split; [by apply required_joins|].
  destruct Hlive as (-> & Hp & Hlive).
  destruct (in_transaction_tx c Hlive) as (h & Htx & _).
  rewrite Transaction_Supports, Transaction_Mandatory.
  unfold withSupportsPropagation, withMandatoryPropagation.
  rewrite !(bind_run _ _ w w c) by by apply deref_Some.
  rewrite Hlive.
  by rewrite !(bind_run _ _ _ _ _ (Session_run p c h w Hp Htx)).
Qed.

Lemma joining_modes_agree_witness :
  Transaction Sample.tm (TxCtx 0) (Sample.biz_err "u2") [PropagationMandatory]
    Sample.w_live
  = (Ret (Some Sample.mockErr),
     mkWorld
       [mkTransactionContext (PlainCtx 0) (Some (Sample.handle 0)) None;
        mkTransactionContext (PlainCtx 0) (Some (Sample.handle 0)) (Some 0%nat)]
       [EvBiz (TxCtx 1) (Some (Sample.handle 0)) "u2"] 1 []).
Proof.
  refine (proj2 (proj2 (joining_modes_agree Sample.tm (TxCtx 0)
    (Sample.biz_err "u2") 0%nat _ Sample.w_live
    (conj eq_refl (conj eq_refl eq_refl))))).
Defined.

(** X14.  On a context that carries no live ambient transaction, a
    [Supports] frame and a [Never] frame run [bizFn] on that very context
    with the handle the factory gives for it, and so does a [NotSupported]
    frame on a context that is no carrier: no carrier is made, no call to
    the driver is issued, and what [bizFn] returns or panics with is handed
    on. *)
Theorem plain_modes_run_directly
    (m : transactionManager) (cx : Context) (bizFn : bizFunc) (w : World) :
  no_live_ambient cx w →
  Transaction m cx bizFn [PropagationSupports] w = call bizFn cx (getPureDB m cx) w
  ∧ Transaction m cx bizFn [PropagationNever] w = call bizFn cx (getPureDB m cx) w
  ∧ (wrapped_ctx cx w = Some cx →
     Transaction m cx bizFn [PropagationNotSupported] w
       = call bizFn cx (getPureDB m cx) w).
Proof.
  intros Hnone. rewrite Transaction_Supports, Transaction_Never,
    Transaction_NotSupported.
  unfold withSupportsPropagation, withNeverPropagation, withNotSupportedPropagation.
  destruct cx as [k|p]; [done|].
  destruct Hnone as (c & Hp & Hdead).
  rewrite !(bind_run _ _ w w c) by by apply deref_Some.
  rewrite Hdead. split; [done|]. split; [done|].
  cbn. rewrite Hp. cbn. intros Hself. injection Hself as Hself.
  erewrite bind_run; [|by erewrite bind_run by by apply deref_Some].
  unfold Ctx. by rewrite Hself.
Qed.

Lemma plain_modes_run_directly_witness :
  Transaction Sample.tm (PlainCtx 0) (Sample.biz_panic "u1") [PropagationSupports]
    Sample.w_empty
  = (Panicked "mock panic",
     mkWorld [] [EvBiz (PlainCtx 0) (Some (gorm.bound Sample.pool (PlainCtx 0))) "u1"]
       0 []).
Proof.
  refine (proj1 (plain_modes_run_directly Sample.tm (PlainCtx 0)
    (Sample.biz_panic "u1") Sample.w_empty I)).
Defined.

(** X15.  On a live ambient transaction whose handle disables nested
    transactions, a [Nested] frame sets no savepoint: it does what a
    [Required] frame does. *)
Theorem nested_disabled_joins
    (m : transactionManager) (cx : Context) (bizFn : bizFunc)
    (p : ptr) (c : transactionContext) (t : DB) (w : World) :
  live_ambient cx w p c →
  tx c = Some t →
  DisableNestedTransaction t = true →
  Transaction m cx bizFn [PropagationNested] w
    = Transaction m cx bizFn [PropagationRequired] w.
Proof.
  intros Hlive Htx Hdnt.
  rewrite Transaction_Required, (required_joins m cx bizFn p c w Hlive).
  destruct Hlive as (-> & Hp & Hlive).
  rewrite Transaction_Nested. unfold withNestedPropagation.
  rewrite (bind_run _ _ w w c) by by apply deref_Some.
  rewrite Hlive. unfold TxDB. rewrite Htx.
  rewrite (bind_run _ _ w w true) by (cbn; by rewrite Hdnt).
  cbn [negb].
  by rewrite (bind_run _ _ _ _ _ (Session_run p c t w Hp Htx)).
Qed.

Lemma nested_disabled_joins_witness :
  let w := mkWorld [mkTransactionContext (PlainCtx 0)
                      (Some (mkDB (PoolTx 0) None (PlainCtx 0) true)) None] [] 1 [] in
  Transaction Sample.tm (TxCtx 0) (Sample.biz_err "u2") [PropagationNested] w
  = Transaction Sample.tm (TxCtx 0) (Sample.biz_err "u2") [PropagationRequired] w.
Proof.
  intros w.
  refine (nested_disabled_joins Sample.tm (TxCtx 0) (Sample.biz_err "u2") 0%nat
    (mkTransactionContext (PlainCtx 0)
       (Some (mkDB (PoolTx 0) None (PlainCtx 0) true)) None)
    (mkDB (PoolTx 0) None (PlainCtx 0) true) w _ eq_refl eq_refl).
  repeat split.
Defined.

(** X16.  A mode that is none of the seven makes [Transaction] panic at
    once: [bizFn] is not run and the world is as it was; the modes after
    the first are never looked at. *)
Theorem unknown_mode_panics
    (m : transactionManager) (cx : Context) (bizFn : bizFunc)
    (mode : TransactionPropagation) (rest : list TransactionPropagation) (w : World) :
  ¬ (0 ≤ mode ≤ 6) →
  Transaction m cx bizFn (mode :: rest) w
    = (Panicked "not supported propagation", w).
Proof.
  intros Hout. unfold Transaction, PropagationRequired, PropagationSupports,
    PropagationMandatory, PropagationRequiresNew, PropagationNotSupported,
    PropagationNested, PropagationNever.
  destruct (Z.eqb_spec mode 0); [lia|]. destruct (Z.eqb_spec mode 1); [lia|].
  destruct (Z.eqb_spec mode 2); [lia|]. destruct (Z.eqb_spec mode 3); [lia|].
  destruct (Z.eqb_spec mode 4); [lia|]. destruct (Z.eqb_spec mode 5); [lia|].
  destruct (Z.eqb_spec mode 6); [lia|]. reflexivity.
Qed.

Lemma unknown_mode_panics_witness :
  Transaction Sample.tm (PlainCtx 0) (Sample.biz_ok "u1")
    [7; PropagationRequired] Sample.w_empty
  = (Panicked "not supported propagation", Sample.w_empty).
Proof.
  apply (unknown_mode_panics Sample.tm (PlainCtx 0) (Sample.biz_ok "u1") 7). lia.
Defined.

(** X17.  On a context that is no carrier, a [RequiresNew] frame is a
    [Required] frame: the same result and the same world for every
    [bizFn]. *)
Theorem top_level_RequiresNew_is_Required
    (m : transactionManager) (k : nat) (bizFn : bizFunc) (w : World) :
  Transaction m (PlainCtx k) bizFn [PropagationRequiresNew] w
    = Transaction m (PlainCtx k) bizFn [PropagationRequired] w.
Proof.
  rewrite Transaction_RequiresNew, Transaction_Required.
  unfold withRequiresNewPropagation, withRequiredPropagation.
  unfold mbind at 1, M_bind at 1. reflexivity.
Qed.

(** ** Errors and panics are handed on *)

Lemma never_nil_bind {A : Type} (x : M A) (f : A → M (option error)) :
  (∀ a, never_nil (f a)) → never_nil (x ≫= f).
Proof.
  intros Hf w. unfold mbind, M_bind.
  destruct (x w) as [[a|v] w1]; [apply Hf | done].
Qed.

Lemma never_nil_defer (cleanup : Outcome (option error) → M unit)
    (body : M (option error)) :
  never_nil body → never_nil (defer cleanup body).
Proof.
  intros Hb w. unfold defer. specialize (Hb w).
  destruct (body w) as [o w1]. by destruct (cleanup o w1) as [[u|v] w2].
Qed.

Lemma never_nil_error (e : error) : never_nil (mret (Some e)).
Proof. done. Qed.

Section NeverNil.

Variable m : transactionManager.
Variable bizFn : bizFunc.
Hypothesis bizFn_never_nil : ∀ cx h, never_nil (call bizFn cx h).

Lemma never_nil_run_owned (p : ptr) : never_nil (run_owned p bizFn).
Proof.
  unfold run_owned. apply never_nil_defer, never_nil_bind. intros c w.
  unfold mbind, M_bind. destruct (TxError c) as [e|]; [done|].
  pose proof (bizFn_never_nil (TxCtx p) (tx c) w) as Hbiz.
  by destruct (call bizFn (TxCtx p) (tx c) w) as [[[e|]|v] w1].
Qed.

Lemma never_nil_join (p : ptr) (h : option DB) :
  never_nil (s ← Session p; call bizFn (TxCtx s) h).
Proof. apply never_nil_bind. intros s. apply bizFn_never_nil. Qed.

Lemma never_nil_open_new (cx c0 : Context) :
  never_nil (db ← gorm.Begin (getPureDB m cx);
             p ← alloc (mkTransactionContext c0 db None);
             run_owned p bizFn).
Proof.
  apply never_nil_bind. intros db. apply never_nil_bind. intros p.
  apply never_nil_run_owned.
Qed.

Lemma never_nil_withRequiredPropagation (cx : Context) :
  never_nil (withRequiredPropagation m cx bizFn).
Proof.
  unfold withRequiredPropagation. destruct cx as [k|p]; [apply never_nil_open_new|].
  apply never_nil_bind. intros c.
  destruct (InTransaction c); [apply never_nil_join|].
  apply never_nil_bind. intros db. apply never_nil_bind. intros u.
  apply never_nil_run_owned.
Qed.

Lemma never_nil_withNestedPropagation (cx : Context) :
  never_nil (withNestedPropagation m cx bizFn).
Proof.
  unfold withNestedPropagation.
  destruct cx as [k|p]; [apply never_nil_withRequiredPropagation|].
  apply never_nil_bind. intros c.
  destruct (InTransaction c); [|apply never_nil_withRequiredPropagation].
  apply never_nil_bind. intros disabled.
  destruct (negb disabled); [|apply never_nil_join].
  apply never_nil_bind. intros err. apply never_nil_defer.
  destruct err; [apply never_nil_error | apply never_nil_join].
Qed.

Lemma never_nil_Transaction (cx : Context) (modes : list TransactionPropagation) :
  never_nil (Transaction m cx bizFn modes).
Proof.
  unfold Transaction.
  destruct (_ =? PropagationRequired); [apply never_nil_withRequiredPropagation|].
  destruct (_ =? PropagationSupports).
  { unfold withSupportsPropagation. destruct cx as [k|p]; [apply bizFn_never_nil|].
    apply never_nil_bind. intros c.
    destruct (InTransaction c); [apply never_nil_join | apply bizFn_never_nil]. }
  destruct (_ =? PropagationMandatory).
  { unfold withMandatoryPropagation. destruct cx as [k|p]; [apply never_nil_error|].
    apply never_nil_bind. intros c.
    destruct (InTransaction c); [apply never_nil_join | apply never_nil_error]. }
  destruct (_ =? PropagationRequiresNew).
  { unfold withRequiresNewPropagation. apply never_nil_bind. intros pureCtx.
    apply never_nil_open_new. }
  destruct (_ =? PropagationNotSupported).
  { unfold withNotSupportedPropagation. apply never_nil_bind. intros pureCtx.
    apply bizFn_never_nil. }
  destruct (_ =? PropagationNested); [apply never_nil_withNestedPropagation|].
  destruct (_ =? PropagationNever); [|done].
  unfold withNeverPropagation. destruct cx as [k|p]; [apply bizFn_never_nil|].
  apply never_nil_bind. intros c.
  destruct (InTransaction c); [apply never_nil_error | apply bizFn_never_nil].
Qed.

End NeverNil.

(** X18.  The engine swallows no error and no panic of [bizFn]: with a
    [bizFn] that never returns nil, no frame, in any mode, on any context
    and in any world, returns nil. *)
Theorem errors_never_swallowed
    (m : transactionManager) (cx : Context) (bizFn : bizFunc)
    (modes : list TransactionPropagation) (w : World) :
  (∀ cx' h, never_nil (call bizFn cx' h)) →
  (Transaction m cx bizFn modes w).1 ≠ Ret None.
Proof. intros Hbiz. by apply never_nil_Transaction. Qed.

Lemma errors_never_swallowed_witness :
  (Transaction Sample.tm (TxCtx 0) (Sample.biz_panic "u2") [PropagationNested]
     Sample.w_live).1 ≠ Ret None.
Proof.
  apply (errors_never_swallowed Sample.tm (TxCtx 0) (Sample.biz_panic "u2")).
  intros cx' h w. cbn. discriminate.
Defined.

(** ** A transaction that is opened is closed *)

(** X19.  A frame that opens a transaction of its own (a [Required]
    frame on a context that carries no live ambient transaction and is no
    child carrier, or a [RequiresNew] frame, the driver accepting the
    BEGIN) never leaves it open: with [bizFn] leaving the carrier of the
    frame as it is, once [bizFn] is left, by a nil return, an error or a
    panic, the calls the frame issues are calls on the handle it began, and
    the last of them is the COMMIT the driver accepted, when [bizFn]
    returned nil and the driver accepted the COMMIT, and a ROLLBACK in
    every other case. *)
Theorem root_frame_always_finalizes
    (m : transactionManager) (cx : Context) (bizFn : bizFunc)
    (mode : TransactionPropagation) (t : DB) (r : ptr)
    (w w2 w3 : World) (o : Outcome (option error)) :
  opens_root m cx w mode t r w2 →
  call bizFn (TxCtx r) (Some t) w2 = (o, w3) →
  carriers w3 !! r = carriers w2 !! r →
  ∃ es, log (Transaction m cx bizFn [mode] w).2 = log w3 ++ es
        ∧ Forall (λ ev, event_handle ev = Some t) es
        ∧ last es = Some match o, head_verdict w3 with
                         | Ret None, None => EvCommit t None
                         | _, _ => EvRollback t
                         end.
Proof.
  intros Hopen Hcall Hkept.
  destruct (opens_root_run m cx bizFn w mode t r w2 Hopen) as (Hown & _ & ->).
  rewrite (run_owned_exit r t bizFn w2 w3 o) by done.
  unfold owned_exit.
  destruct o as [[e|]|v]; [| destruct (head_verdict w3) |];
    eexists; (split; [reflexivity|]); split; try reflexivity; repeat constructor.
Qed.

Lemma root_frame_always_finalizes_witness :
  ∃ es, log (Transaction Sample.tm (PlainCtx 0) (Sample.biz_panic "u1")
               [PropagationRequiresNew] Sample.w_empty).2
        = [EvBegin (Sample.handle 0); EvBiz (TxCtx 0) (Some (Sample.handle 0)) "u1"]
          ++ es
        ∧ Forall (λ ev, event_handle ev = Some (Sample.handle 0)) es
        ∧ last es = Some (EvRollback (Sample.handle 0)).
Proof.
  refine (root_frame_always_finalizes Sample.tm (PlainCtx 0) (Sample.biz_panic "u1")
    PropagationRequiresNew _ _ Sample.w_empty _ _ _
    (opens_requires_new Sample.tm (PlainCtx 0) Sample.w_empty
       (gorm.bound Sample.pool (PlainCtx 0)) (PlainCtx 0) eq_refl eq_refl eq_refl)
    eq_refl eq_refl).
Defined.

(** ** Sessions *)

(** X20.  Only a root carrier finalizes: on the session derived from a
    carrier that holds a handle, [Rollback] does nothing and [Commit]
    issues no call to the driver; [Commit] returns nil when the handle is
    a live transaction and [ErrCommitWithoutTransaction] when it is not. *)
Theorem session_never_finalizes
    (p : ptr) (c : transactionContext) (h : DB) (w : World) :
  carriers w !! p = Some c →
  tx c = Some h →
  let s := length (carriers w) in
  let w1 := stored (session_of p c) w in
  Session p w = (Ret s, w1)
  ∧ Rollback s w1 = (Ret tt, w1)
  ∧ Commit s w1 =
      (Ret (if gorm.is_committer (ConnPool h) then None
            else Some ErrCommitWithoutTransaction), w1).
Proof.
  intros Hp Htx s w1. split; [by apply (Session_run p c h)|].
  assert (carriers w1 !! s = Some (session_of p c)) as Hs
    by by apply list_lookup_middle.
  unfold Rollback, Commit.
  rewrite !(bind_run _ _ w1 w1 (session_of p c)) by by apply deref_Some.
  unfold InTransaction, IsRoot, session_of. rewrite Htx. cbn.
  rewrite andb_false_r. split; [done|].
  by destruct (gorm.is_committer (ConnPool h)).
Qed.

Lemma session_never_finalizes_witness :
  let w1 := stored (session_of 0 (mkTransactionContext (PlainCtx 0)
                                    (Some (Sample.handle 0)) None)) Sample.w_live in
  Session 0 Sample.w_live = (Ret 1%nat, w1)
  ∧ Rollback 1 w1 = (Ret tt, w1)
  ∧ Commit 1 w1 = (Ret None, w1).
Proof.
  refine (session_never_finalizes 0%nat _ (Sample.handle 0) Sample.w_live
    eq_refl eq_refl).
Defined.

(** X21.  Inside a frame, [GetDB] on the context [bizFn] is run on gives a
    handle on the transaction of the frame: the handle the frame began,
    in a frame that owns its transaction, and the ambient handle bound to
    the ambient context, in a frame that joined. *)
Theorem GetDB_inside_frame
    (m : transactionManager) (r p : ptr) (t h : DB) (c : transactionContext)
    (w2 w : World) :
  owns r t w2 →
  carriers w !! p = Some c →
  tx c = Some h →
  TransactionManager.GetDB m (TxCtx r) w2 = (Ret (Some t), w2)
  ∧ TransactionManager.GetDB m (TxCtx (length (carriers w)))
      (stored (session_of p c) w)
    = (Ret (Some (gorm.bound h (ctx c))), stored (session_of p c) w)
  ∧ ConnPool (gorm.bound h (ctx c)) = ConnPool h.
Proof.
  intros (c0 & Hr & Htx0 & _) Hp Htx. unfold TransactionManager.GetDB. split.
  - rewrite (bind_run _ _ w2 w2 c0) by by apply deref_Some. by rewrite Htx0.
  - split; [|done].
    rewrite (bind_run _ _ (stored (session_of p c) w) (stored (session_of p c) w)
               (session_of p c)).
    + unfold session_of. by rewrite Htx.
    + apply deref_Some. by apply list_lookup_middle.
Qed.

Lemma GetDB_inside_frame_witness :
  TransactionManager.GetDB Sample.tm (TxCtx 0) Sample.w_live
    = (Ret (Some (Sample.handle 0)), Sample.w_live)
  ∧ TransactionManager.GetDB Sample.tm (TxCtx 1)
      (stored (session_of 0 (mkTransactionContext (PlainCtx 0)
                               (Some (Sample.handle 0)) None)) Sample.w_live)
    = (Ret (Some (gorm.bound (Sample.handle 0) (PlainCtx 0))),
       stored (session_of 0 (mkTransactionContext (PlainCtx 0)
                               (Some (Sample.handle 0)) None)) Sample.w_live)
  ∧ ConnPool (gorm.bound (Sample.handle 0) (PlainCtx 0)) = ConnPool (Sample.handle 0).
Proof.
  refine (GetDB_inside_frame Sample.tm 0%nat 0%nat (Sample.handle 0)
    (Sample.handle 0) _ Sample.w_live Sample.w_live _ eq_refl eq_refl).
  eexists. repeat split.
Defined.

(** ** Defaulting twice *)

(** X22.  Defaulting is idempotent: in a defaulted configuration no
    defaulted field is unset, and defaulting it again changes nothing and
    ends as the first defaulting did. *)
Theorem PatchDefaultConfig_idempotent (c : Config.ConnConfig) :
  let c' := (Config.PatchDefaultConfig c).2 in
  Config.Port c' ≠ 0 ∧ Config.MaxIdleConns c' ≠ 0 ∧ Config.MaxOpenConns c' ≠ 0
  ∧ Config.ConnMaxLifetimeSec c' ≠ 0 ∧ Config.Dialect c' ≠ ""
  ∧ Config.PatchDefaultConfig c' = ((Config.PatchDefaultConfig c).1, c').
Proof.
  assert (∀ x d : Z, d ≠ 0 → (if x =? 0 then d else x) ≠ 0) as Hz.
  { intros x d Hd. by destruct (Z.eqb_spec x 0). }
  assert (∀ x : string, (if String.eqb x "" then "mysql" else x) ≠ "") as Hs.
  { intros x. by destruct (String.eqb_spec x ""). }
  cbv zeta. rewrite (surjective_pairing (Config.PatchDefaultConfig (_ .2))).
  rewrite PatchDefaultConfig_outcome, !PatchDefaultConfig_fields,
    PatchDefaultConfig_outcome.
  assert (∀ x d : Z, d ≠ 0 →
            (if (if x =? 0 then d else x) =? 0 then d else if x =? 0 then d else x)
            = (if x =? 0 then d else x)) as Hzz.
  { intros x d Hd. destruct (Z.eqb_spec x 0) as [->|Hx].
    - by destruct (Z.eqb_spec d 0).
    - by destruct (Z.eqb_spec x 0). }
  assert (∀ x : string,
            (if String.eqb (if String.eqb x "" then "mysql" else x) ""
             then "mysql" else if String.eqb x "" then "mysql" else x)
            = (if String.eqb x "" then "mysql" else x)) as Hss.
  { intros x. destruct (String.eqb_spec x "") as [->|Hx]; [done|].
    by destruct (String.eqb_spec x ""). }
  cbn. repeat (split; [by (apply Hz || apply Hs)|]).
  by rewrite !Hzz, Hss.
Qed.

(** X23.  Business functions at different addresses get savepoints of
    different names. *)
Theorem savepoint_names_distinct (f g : bizFunc) :
  addr f ≠ addr g → savepoint_name f ≠ savepoint_name g.
Proof. intros Hne H. by apply Hne, savepoint_name_inj. Qed.

Lemma savepoint_names_distinct_witness :
  savepoint_name (Sample.biz_ok "u1") ≠ savepoint_name (Sample.biz_err "u2").
Proof.
  apply (savepoint_names_distinct (Sample.biz_ok "u1") (Sample.biz_err "u2")).
  discriminate.
Defined.
